(** * Cell manager (src/simulation/cell/cell_manager.h): a shallow embedding

    The header declares the GPU cell record [ComputeCell] and the host-side
    [CellManager].  Embedded here are the parts of it that carry logic: the
    packed unique id and the record layout of [ComputeCell], the barrier
    batching helper with its statistics, the buffer rotation, the LOD
    defaults and the cell limit accessors.  The member functions that are
    only declared in the header are defined in cell_manager.cpp and are not
    modelled. *)

From Stdlib Require Import ZArith Lia Bool List String.
From Stdlib Require Import Floats.SpecFloat.
From stdpp Require Import gmap.

Local Open Scope Z_scope.

(** ** Machine integers

    Unsigned types are [Z] reduced modulo their width.  [int] is [Z] with
    the two's-complement wrap-around every supported compiler produces;
    ISO C++ leaves signed overflow undefined, so the theorems about [int]
    arithmetic carry an explicit no-overflow hypothesis. *)

Module MachineInt.

Definition u8 (z : Z) : Z := z mod 2 ^ 8.
Definition u32 (z : Z) : Z := z mod 2 ^ 32.
Definition u64 (z : Z) : Z := z mod 2 ^ 64.

Definition is_u32 (z : Z) : Prop := 0 <= z < 2 ^ 32.
Definition is_u64 (z : Z) : Prop := 0 <= z < 2 ^ 64.

Definition INT_MIN : Z := - 2 ^ 31.
Definition INT_MAX : Z := 2 ^ 31 - 1.
Definition is_int (z : Z) : Prop := INT_MIN <= z <= INT_MAX.

Definition int_wrap (z : Z) : Z := (z + 2 ^ 31) mod 2 ^ 32 - 2 ^ 31.
Definition int_add (a b : Z) : Z := int_wrap (a + b).
(** [x++] on an [int]. *)
Definition int_incr (a : Z) : Z := int_add a 1.
(** [a % b] on [int]: the remainder has the sign of the dividend. *)
Definition int_rem (a b : Z) : Z := Z.rem a b.

End MachineInt.
Import MachineInt.

(** ** IEEE binary32, the C++ [float] *)

Module Float32.

Definition prec : Z := 24.
Definition emax : Z := 128.
Definition float : Type := spec_float.

(** [static_cast<float>(n)] and the integral literals [20.0f], [1.0f]:
    round to nearest, ties to even. *)
Definition of_int (n : Z) : float := binary_normalize prec emax n 0 false.
Definition div (a b : float) : float := SFdiv prec emax a b.
Definition ltb (a b : float) : bool := SFltb a b.
Definition zero : float := S754_zero false.
Definition one : float := of_int 1.

(** The integer a finite float denotes, when it denotes one. *)
Definition to_int_exact (f : float) : option Z :=
  match f with
  | S754_zero _ => Some 0
  | S754_finite s m e =>
      let v := if s then Z.neg m else Z.pos m in
      if 0 <=? e then Some (v * 2 ^ e)
      else if v mod 2 ^ (- e) =? 0 then Some (v / 2 ^ (- e)) else None
  | _ => None
  end.

End Float32.

(** ** GLM vectors *)

Record vec4 := Vec4 { v_x : Float32.float; v_y : Float32.float;
                      v_z : Float32.float; v_w : Float32.float }.
(** [glm::quat]'s constructor takes [w, x, y, z]. *)
Record quat := Quat { q_w : Float32.float; q_x : Float32.float;
                      q_y : Float32.float; q_z : Float32.float }.

Definition vec4_zero : vec4 :=
  Vec4 Float32.zero Float32.zero Float32.zero Float32.zero.
Definition quat_identity : quat :=
  Quat Float32.one Float32.zero Float32.zero Float32.zero.

(** ** ComputeCell *)

Module ComputeCell.

Record t := Make {
  positionAndMass : vec4;
  velocity : vec4;
  acceleration : vec4;
  orientation : quat;
  angularVelocity : quat;
  angularAcceleration : quat;
  signallingSubstances : vec4;
  modeIndex : Z;
  age : Float32.float;
  toxins : Float32.float;
  nitrates : Float32.float;
  uniqueID : Z;
  justSplit : Z;
  padding2 : list Z
}.

(** The default member initialisers. *)
Definition default : t := {|
  positionAndMass := Vec4 Float32.zero Float32.zero Float32.zero Float32.one;
  velocity := vec4_zero;
  acceleration := vec4_zero;
  orientation := quat_identity;
  angularVelocity := quat_identity;
  angularAcceleration := quat_identity;
  signallingSubstances := vec4_zero;
  modeIndex := 0;
  age := Float32.zero;
  toxins := Float32.zero;
  nitrates := Float32.one;
  uniqueID := 0;
  justSplit := 0;
  padding2 := [0; 0; 0; 0]
|}.

Definition set_uniqueID (id : Z) (c : t) : t :=
  Make (positionAndMass c) (velocity c) (acceleration c) (orientation c)
       (angularVelocity c) (angularAcceleration c) (signallingSubstances c)
       (modeIndex c) (age c) (toxins c) (nitrates c)
       id (justSplit c) (padding2 c).

(** [static_cast<uint32_t>((uniqueID >> 32) & 0xFFFFFFFF)] *)
Definition getParentID (c : t) : Z :=
  u32 (Z.land (Z.shiftr (uniqueID c) 32) 0xFFFFFFFF).

(** [static_cast<uint32_t>((uniqueID >> 1) & 0x7FFFFFFF)] *)
Definition getCellID (c : t) : Z :=
  u32 (Z.land (Z.shiftr (uniqueID c) 1) 0x7FFFFFFF).

(** [static_cast<uint8_t>(uniqueID & 0x1)] *)
Definition getChildFlag (c : t) : Z :=
  u8 (Z.land (uniqueID c) 0x1).

(** The packed value [setUniqueID] stores: the three operands of [|] are
    [uint64_t] (the last after the usual conversion from [int]), and [<<]
    on [uint64_t] drops the bits shifted out. *)
Definition packUniqueID (parentID cellID childFlag : Z) : Z :=
  Z.lor (Z.lor (u64 (Z.shiftl (u64 parentID) 32))
               (u64 (Z.shiftl (u64 (Z.land cellID 0x7FFFFFFF)) 1)))
        (u64 (Z.land childFlag 0x1)).

Definition setUniqueID (parentID cellID childFlag : Z) (c : t) : t :=
  set_uniqueID (packUniqueID parentID cellID childFlag) c.

(** [getRadius] is [pow(positionAndMass.w, 1.0f/3.0f)]; [pow] is a libm
    function outside the IEEE operations of [Float32], so it has no
    counterpart here. *)

End ComputeCell.

(** ** Record layout of ComputeCell

    The two [static_assert]s after the struct are about its layout:
    members are placed in declaration order, each at the next offset that
    is a multiple of its alignment, and the size is rounded up to the
    largest member alignment.  [glm::vec4] and [glm::quat] are four packed
    floats; GLM aligns them to 4 bytes, or to 16 with its aligned types
    switched on, so the alignment is a parameter. *)

Module Layout.

Inductive ctype :=
  | TInt | TFloat | TUInt32 | TUInt64 | TVec4 | TQuat
  | TArray (elem : ctype) (len : Z).

Section WithGlm.
Variable glm_align : Z.

Fixpoint sizeof (ty : ctype) : Z :=
  match ty with
  | TInt | TFloat | TUInt32 => 4
  | TUInt64 => 8
  | TVec4 | TQuat => 16
  | TArray elem len => sizeof elem * len
  end.

Fixpoint alignof (ty : ctype) : Z :=
  match ty with
  | TInt | TFloat | TUInt32 => 4
  | TUInt64 => 8
  | TVec4 | TQuat => glm_align
  | TArray elem _ => alignof elem
  end.

Definition align_up (off a : Z) : Z := (off + a - 1) / a * a.

(** Offsets of the members of a struct, with the first free offset. *)
Fixpoint place (fields : list (string * ctype)) (off : Z)
  : list (string * Z) * Z :=
  match fields with
  | [] => ([], off)
  | (name, ty) :: rest =>
      let o := align_up off (alignof ty) in
      let '(placed, fin) := place rest (o + sizeof ty) in
      ((name, o) :: placed, fin)
  end.

Definition struct_align (fields : list (string * ctype)) : Z :=
  fold_right (fun f a => Z.max (alignof (snd f)) a) 1 fields.

Definition struct_sizeof (fields : list (string * ctype)) : Z :=
  align_up (snd (place fields 0)) (struct_align fields).

Fixpoint assoc (name : string) (l : list (string * Z)) : option Z :=
  match l with
  | [] => None
  | (n, o) :: rest => if String.eqb n name then Some o else assoc name rest
  end.

Definition struct_offsetof (fields : list (string * ctype)) (name : string)
  : option Z :=
  assoc name (fst (place fields 0)).

End WithGlm.

(** The members of [ComputeCell], in declaration order. *)
Definition ComputeCell_fields : list (string * ctype) :=
  [ ("positionAndMass", TVec4); ("velocity", TVec4); ("acceleration", TVec4);
    ("orientation", TQuat); ("angularVelocity", TQuat);
    ("angularAcceleration", TQuat);
    ("signallingSubstances", TVec4);
    ("modeIndex", TInt); ("age", TFloat); ("toxins", TFloat);
    ("nitrates", TFloat);
    ("uniqueID", TUInt64); ("justSplit", TUInt64);
    ("padding2", TArray TUInt32 4) ]%string.

Definition sizeof_ComputeCell (glm_align : Z) : Z :=
  struct_sizeof glm_align ComputeCell_fields.

Definition offsetof_ComputeCell (glm_align : Z) (member : string) : option Z :=
  struct_offsetof glm_align ComputeCell_fields member.

(** [static_assert(sizeof(ComputeCell) % 16 == 0, ...)] and
    [static_assert(offsetof(ComputeCell, uniqueID) % 8 == 0, ...)] *)
Definition static_asserts (glm_align : Z) : bool :=
  (sizeof_ComputeCell glm_align mod 16 =? 0)
  && match offsetof_ComputeCell glm_align "uniqueID" with
     | Some o => o mod 8 =? 0
     | None => false
     end.

End Layout.

(** ** The OpenGL calls the header issues *)

Inductive gl_call :=
  | glMemoryBarrier (barriers : Z).

(** ** BarrierStats *)

Module BarrierStats.

Record t := Make {
  totalBarriers : Z;
  batchedBarriers : Z;
  flushCalls : Z;
  barrierEfficiency : Float32.float
}.

Definition default : t := Make 0 0 0 Float32.zero.

Definition reset (s : t) : t := Make 0 0 0 Float32.zero.

Definition set_barrierEfficiency (f : Float32.float) (s : t) : t :=
  Make (totalBarriers s) (batchedBarriers s) (flushCalls s) f.

(** [static_cast<float>(batchedBarriers) / totalBarriers]: the divisor is
    converted to [float] and the quotient is rounded to [float]. *)
Definition updateEfficiency (s : t) : t :=
  if 0 <? totalBarriers s then
    set_barrierEfficiency
      (Float32.div (Float32.of_int (batchedBarriers s))
                   (Float32.of_int (totalBarriers s))) s
  else s.

(** The same function with the division instrumented: dividing by an
    integer that is zero is reported as [None]. *)
Definition div_by_int (num : Float32.float) (den : Z) : option Float32.float :=
  if den =? 0 then None else Some (Float32.div num (Float32.of_int den)).

Definition updateEfficiency_checked (s : t) : option t :=
  if 0 <? totalBarriers s then
    match div_by_int (Float32.of_int (batchedBarriers s)) (totalBarriers s) with
    | Some q => Some (set_barrierEfficiency q s)
    | None => None
    end
  else Some s.

Definition incr_totalBarriers (s : t) : t :=
  Make (int_incr (totalBarriers s)) (batchedBarriers s) (flushCalls s)
       (barrierEfficiency s).
Definition incr_batchedBarriers (s : t) : t :=
  Make (totalBarriers s) (int_incr (batchedBarriers s)) (flushCalls s)
       (barrierEfficiency s).
Definition incr_flushCalls (s : t) : t :=
  Make (totalBarriers s) (batchedBarriers s) (int_incr (flushCalls s))
       (barrierEfficiency s).

End BarrierStats.

(** ** The memory BarrierStats pointers point into, and the GL command
    stream *)

Definition addr : Type := positive.
Abbreviation store := (gmap addr BarrierStats.t).

Record env := Env {
  mem : store;
  gl : list gl_call
}.

Definition set_mem (m : store) (e : env) : env := Env m (gl e).
Definition issue (c : gl_call) (e : env) : env := Env (mem e) (gl e ++ [c]).

(** The OR of the masks of a sequence of issued barriers. *)
Definition or_masks (calls : list gl_call) : Z :=
  fold_right (fun c acc => match c with glMemoryBarrier m => Z.lor m acc end)
             0 calls.

Definition mask_of (c : gl_call) : Z :=
  match c with glMemoryBarrier m => m end.

(** ** BarrierBatch *)

Module BarrierBatch.

Record t := Make {
  pendingBarriers : Z;
  needsFlush : bool;
  stats : option addr          (* [None] is [nullptr] *)
}.

Definition default : t := Make 0 false None.

Definition addBarrier (barrier : Z) (b : t) (e : env) : t * env :=
  let b' := Make (Z.lor (pendingBarriers b) barrier) (needsFlush b) (stats b) in
  match stats b with
  | Some p =>
      let count (s : BarrierStats.t) :=
        let s1 := BarrierStats.incr_totalBarriers s in
        if negb (pendingBarriers b' =? barrier)
        then BarrierStats.incr_batchedBarriers s1
        else s1 in
      (b', set_mem (alter count p (mem e)) e)
  | None => (b', e)
  end.

Definition flush (b : t) (e : env) : t * env :=
  if negb (pendingBarriers b =? 0) then
    let e1 := issue (glMemoryBarrier (pendingBarriers b)) e in
    let e2 :=
      match stats b with
      | Some p =>
          set_mem (alter (fun s => BarrierStats.updateEfficiency
                                     (BarrierStats.incr_flushCalls s))
                         p (mem e1)) e1
      | None => e1
      end in
    (Make 0 false (stats b), e2)
  else (Make (pendingBarriers b) false (stats b), e).

Definition clear (b : t) : t := Make 0 false (stats b).

(** A run of [addBarrier] calls, one per requested kind. *)
Definition addBarriers (kinds : list Z) (st : t * env) : t * env :=
  fold_left (fun st k => addBarrier k (fst st) (snd st)) kinds st.

Definition setStats (statsPtr : option addr) (b : t) : t :=
  Make (pendingBarriers b) (needsFlush b) statsPtr.

End BarrierBatch.

(** ** CellManager

    The members the functions defined in the header read or write, and the
    buffer handles of the cell store.  The member [barrierStats] is an
    object [barrierBatch.stats] may point to, so it lives in the store, at
    the address kept in the field of that name. *)

Module CellManager.

Record t := Make {
  cellBuffer : list Z;            (* GLuint cellBuffer[3] *)
  instanceBuffer : Z;
  bufferRotation : Z;
  gpuCellCountBuffer : Z;
  stagingCellCountBuffer : Z;
  cellAdditionBuffer : Z;
  stagingCellBuffer : Z;
  lodDistances : list Float32.float;
  useLODSystem : bool;
  useFrustumCulling : bool;
  visibleCellCount : Z;
  cellCount : Z;
  spawnRadius : Float32.float;
  cellLimit : Z;
  barrierBatch : BarrierBatch.t;
  barrierStats : addr
}.

Section Config.
(** [config::MAX_CELLS] and [config::DEFAULT_SPAWN_RADIUS] come from
    core/config.h. *)
Variable config_MAX_CELLS : Z.
Variable config_DEFAULT_SPAWN_RADIUS : Float32.float.

Definition MAX_CELLS : Z := config_MAX_CELLS.

(** [{20.0f, 60.0f, 150.0f, 250.0f}] *)
Definition lodDistances_default : list Float32.float :=
  [Float32.of_int 20; Float32.of_int 60; Float32.of_int 150;
   Float32.of_int 250].

(** The default member initialisers, for a manager whose [barrierStats]
    member is at address [statsAddr]. *)
Definition default (statsAddr : addr) : t := {|
  cellBuffer := [0; 0; 0];
  instanceBuffer := 0;
  bufferRotation := 0;
  gpuCellCountBuffer := 0;
  stagingCellCountBuffer := 0;
  cellAdditionBuffer := 0;
  stagingCellBuffer := 0;
  lodDistances := lodDistances_default;
  useLODSystem := true;
  useFrustumCulling := true;
  visibleCellCount := 0;
  cellCount := 0;
  spawnRadius := config_DEFAULT_SPAWN_RADIUS;
  cellLimit := config_MAX_CELLS;
  barrierBatch := BarrierBatch.default;
  barrierStats := statsAddr
|}.

End Config.

Definition set_bufferRotation (r : Z) (cm : t) : t :=
  Make (cellBuffer cm) (instanceBuffer cm) r (gpuCellCountBuffer cm)
       (stagingCellCountBuffer cm) (cellAdditionBuffer cm)
       (stagingCellBuffer cm) (lodDistances cm) (useLODSystem cm)
       (useFrustumCulling cm) (visibleCellCount cm) (cellCount cm)
       (spawnRadius cm) (cellLimit cm) (barrierBatch cm) (barrierStats cm).

Definition set_cellLimit (l : Z) (cm : t) : t :=
  Make (cellBuffer cm) (instanceBuffer cm) (bufferRotation cm)
       (gpuCellCountBuffer cm) (stagingCellCountBuffer cm)
       (cellAdditionBuffer cm) (stagingCellBuffer cm) (lodDistances cm)
       (useLODSystem cm) (useFrustumCulling cm) (visibleCellCount cm)
       (cellCount cm) (spawnRadius cm) l (barrierBatch cm) (barrierStats cm).

Definition set_barrierBatch (b : BarrierBatch.t) (cm : t) : t :=
  Make (cellBuffer cm) (instanceBuffer cm) (bufferRotation cm)
       (gpuCellCountBuffer cm) (stagingCellCountBuffer cm)
       (cellAdditionBuffer cm) (stagingCellBuffer cm) (lodDistances cm)
       (useLODSystem cm) (useFrustumCulling cm) (visibleCellCount cm)
       (cellCount cm) (spawnRadius cm) (cellLimit cm) b (barrierStats cm).

Definition getCellCount (cm : t) : Z := cellCount cm.
Definition getSpawnRadius (cm : t) : Float32.float := spawnRadius cm.
Definition getVisibleCellCount (cm : t) : Z := visibleCellCount cm.

(** *** Barrier wrappers *)

Definition addBarrier (barrier : Z) (cm : t) (e : env) : t * env :=
  let '(b, e') := BarrierBatch.addBarrier barrier (barrierBatch cm) e in
  (set_barrierBatch b cm, e').

Definition flushBarriers (cm : t) (e : env) : t * env :=
  let '(b, e') := BarrierBatch.flush (barrierBatch cm) e in
  (set_barrierBatch b cm, e').

Definition clearBarriers (cm : t) : t :=
  set_barrierBatch (BarrierBatch.clear (barrierBatch cm)) cm.

Definition getBarrierStats (cm : t) (e : env) : option BarrierStats.t :=
  mem e !! barrierStats cm.

Definition resetBarrierStats (cm : t) (e : env) : env :=
  set_mem (alter BarrierStats.reset (barrierStats cm) (mem e)) e.

(** *** Buffer rotation *)

(** [(index + bufferRotation) % max] *)
Definition getRotatedIndex (index max : Z) (cm : t) : Z :=
  int_rem (int_add index (bufferRotation cm)) max.

Definition rotateBuffers (cm : t) : t :=
  set_bufferRotation (getRotatedIndex 1 3 cm) cm.

(** [a[i]] on a C array: defined only inside the array. *)
Definition array_get (a : list Z) (i : Z) : option Z :=
  if 0 <=? i then a !! Z.to_nat i else None.

Definition getCellReadBuffer (cm : t) : option Z :=
  array_get (cellBuffer cm) (getRotatedIndex 0 3 cm).

Definition getCellWriteBuffer (cm : t) : option Z :=
  array_get (cellBuffer cm) (getRotatedIndex 1 3 cm).

(** *** Cell limit *)

Definition setCellLimit (limit : Z) (cm : t) : t := set_cellLimit limit cm.
Definition getCellLimit (cm : t) : Z := cellLimit cm.

(** *** The state-changing member functions defined in the header *)

Inductive op :=
  | OpAddBarrier (barrier : Z)
  | OpFlushBarriers
  | OpClearBarriers
  | OpResetBarrierStats
  | OpRotateBuffers
  | OpSetCellLimit (limit : Z).

Definition run (o : op) (st : t * env) : t * env :=
  let '(cm, e) := st in
  match o with
  | OpAddBarrier barrier => addBarrier barrier cm e
  | OpFlushBarriers => flushBarriers cm e
  | OpClearBarriers => (clearBarriers cm, e)
  | OpResetBarrierStats => (cm, resetBarrierStats cm e)
  | OpRotateBuffers => (rotateBuffers cm, e)
  | OpSetCellLimit limit => (setCellLimit limit cm, e)
  end.

Definition run_all (os : list op) (st : t * env) : t * env :=
  fold_left (fun st o => run o st) os st.

(** The argument of the last [setCellLimit] in a run, or [l] if there is
    none. *)
Definition last_limit (os : list op) (l : Z) : Z :=
  fold_left (fun l o => match o with OpSetCellLimit x => x | _ => l end) os l.

(** The OR of all kinds requested through [addBarrier] in a run. *)
Definition requested (os : list op) : Z :=
  fold_right (fun o acc => match o with
                           | OpAddBarrier k => Z.lor k acc
                           | _ => acc
                           end) 0 os.

Definition is_flush (o : op) : bool :=
  match o with OpFlushBarriers => true | _ => false end.

Definition is_clear (o : op) : bool :=
  match o with OpClearBarriers => true | _ => false end.

(** The buffer handles held by the manager. *)
Definition buffers (cm : t) : list Z :=
  cellBuffer cm ++
  [instanceBuffer cm; gpuCellCountBuffer cm; stagingCellCountBuffer cm;
   cellAdditionBuffer cm; stagingCellBuffer cm].

End CellManager.

(** A list of floats in strictly ascending order. *)
Fixpoint strictly_ascending (l : list Float32.float) : bool :=
  match l with
  | a :: (b :: _) as rest => Float32.ltb a b && strictly_ascending rest
  | _ => true
  end.

(** * Properties *)

Section UniqueID.
Import ComputeCell.

Lemma testbit_u64 z i : Z.testbit (u64 z) i = (i <? 64) && Z.testbit z i.
Proof.
  unfold u64. destruct (Z.ltb_spec i 64) as [Hlt | Hge]; cbn [andb].
  - destruct (Z.lt_ge_cases i 0).
    + now rewrite !Z.testbit_neg_r.
    + now rewrite Z.mod_pow2_bits_low by lia.
  - now rewrite Z.mod_pow2_bits_high by lia.
Qed.

Lemma testbit_mask (n i : Z) :
  0 <= n -> Z.testbit (Z.ones n) i = (0 <=? i) && (i <? n).
Proof.
  intros Hn. destruct (Z.leb_spec 0 i); destruct (Z.ltb_spec i n); cbn [andb].
  - apply Z.ones_spec_low; lia.
  - apply Z.ones_spec_high; lia.
  - apply Z.testbit_neg_r; lia.
  - apply Z.testbit_neg_r; lia.
Qed.

Ltac split_ranges :=
  repeat match goal with
    | |- context [?a <? ?b] => destruct (Z.ltb_spec a b); try lia
    | |- context [?a <=? ?b] => destruct (Z.leb_spec a b); try lia
    | |- context [?a =? ?b] => destruct (Z.eqb_spec a b); try lia
    end;
  cbn [andb orb]; rewrite ?andb_false_r, ?orb_false_r, ?andb_true_r;
  try reflexivity.

(** Bit [i] of the packed id, for arbitrary arguments: bit 0 is the low bit
    of the flag, bits 1..31 are the low 31 bits of the cell id, bits 32..63
    the low 32 bits of the parent id, and nothing lies above bit 63. *)
Lemma packUniqueID_bits p c f i :
  Z.testbit (packUniqueID p c f) i =
    ((32 <=? i) && (i <? 64) && Z.testbit p (i - 32))
    || ((1 <=? i) && (i <? 32) && Z.testbit c (i - 1))
    || ((i =? 0) && Z.testbit f 0).
Proof.
  unfold packUniqueID.
  destruct (Z.lt_ge_cases i 0) as [Hneg | Hpos].
  { rewrite Z.testbit_neg_r by lia. split_ranges. }
  rewrite !Z.lor_spec, !testbit_u64, !Z.shiftl_spec, !testbit_u64,
    !Z.land_spec by lia.
  change (Z.testbit 0x7FFFFFFF) with (Z.testbit (Z.ones 31)).
  change (Z.testbit 0x1) with (Z.testbit (Z.ones 1)).
  rewrite !testbit_mask by lia.
  destruct (Z.leb_spec 32 i), (Z.leb_spec 1 i), (Z.eqb_spec i 0);
    try lia; subst; cbn [andb orb];
    rewrite ?(Z.testbit_neg_r _ (_ - 32)), ?(Z.testbit_neg_r _ (_ - 1)) by lia;
    split_ranges.
Qed.

Lemma packUniqueID_u64 p c f : is_u64 (packUniqueID p c f).
Proof.
  assert (E : u64 (packUniqueID p c f) = packUniqueID p c f).
  { apply Z.bits_inj'. intros i Hi.
    rewrite testbit_u64, packUniqueID_bits. split_ranges. }
  unfold is_u64. rewrite <- E. apply Z.mod_pos_bound. lia.
Qed.

Lemma getParentID_set p c f cell :
  getParentID (setUniqueID p c f cell) = p mod 2 ^ 32.
Proof.
  unfold getParentID, setUniqueID, u32. cbn [uniqueID set_uniqueID].
  change 0xFFFFFFFF with (Z.ones 32).
  rewrite Z.land_ones, Z.mod_mod by lia.
  rewrite <- !Z.land_ones by lia.
  apply Z.bits_inj'. intros i Hi.
  rewrite !Z.land_spec, Z.shiftr_spec, packUniqueID_bits, testbit_mask by lia.
  replace (i + 32 - 32) with i by lia. split_ranges.
Qed.

Lemma getCellID_set p c f cell :
  getCellID (setUniqueID p c f cell) = c mod 2 ^ 31.
Proof.
  unfold getCellID, setUniqueID, u32. cbn [uniqueID set_uniqueID].
  change 0x7FFFFFFF with (Z.ones 31).
  rewrite Z.mod_small.
  2:{ rewrite Z.land_ones by lia.
      pose proof (Z.mod_pos_bound (Z.shiftr (packUniqueID p c f) 1) (2 ^ 31)).
      lia. }
  rewrite <- (Z.land_ones c) by lia.
  apply Z.bits_inj'. intros i Hi.
  rewrite !Z.land_spec, Z.shiftr_spec, packUniqueID_bits, testbit_mask by lia.
  replace (i + 1 - 1) with i by lia. split_ranges.
Qed.

Lemma getChildFlag_set p c f cell :
  getChildFlag (setUniqueID p c f cell) = f mod 2.
Proof.
  unfold getChildFlag, setUniqueID, u8. cbn [uniqueID set_uniqueID].
  change 0x1 with (Z.ones 1).
  rewrite Z.mod_small.
  2:{ rewrite Z.land_ones by lia.
      pose proof (Z.mod_pos_bound (packUniqueID p c f) (2 ^ 1)). lia. }
  change 2 with (2 ^ 1). rewrite <- (Z.land_ones f) by lia.
  apply Z.bits_inj'. intros i Hi.
  rewrite !Z.land_spec, packUniqueID_bits, testbit_mask by lia.
  split_ranges. now subst.
Qed.

(** C1.  Encoding a 32-bit parent id, a cell id below 2^31 and a child flag
    in {0, 1} with [setUniqueID] and decoding with [getParentID],
    [getCellID] and [getChildFlag] returns the three fields; the packed
    word is the 64-bit value with the parent id in its top 32 bits, the
    cell id in the next 31 and the flag in the lowest bit, and no other
    field of the cell changes. *)
Theorem setUniqueID_roundtrip (parentID cellID childFlag : Z) (cell : t) :
  is_u32 parentID -> 0 <= cellID < 2 ^ 31 ->
  childFlag = 0 \/ childFlag = 1 ->
  let cell' := setUniqueID parentID cellID childFlag cell in
  getParentID cell' = parentID /\
  getCellID cell' = cellID /\
  getChildFlag cell' = childFlag /\
  uniqueID cell' = parentID * 2 ^ 32 + cellID * 2 ^ 1 + childFlag /\
  is_u64 (uniqueID cell') /\
  set_uniqueID (uniqueID cell) cell' = cell.
Proof.
  intros Hp Hc Hf cell'. unfold is_u32 in Hp.
  assert (HP : getParentID cell' = parentID)
    by (unfold cell'; rewrite getParentID_set; apply Z.mod_small; lia).
  assert (HC : getCellID cell' = cellID)
    by (unfold cell'; rewrite getCellID_set; apply Z.mod_small; lia).
  assert (HF : getChildFlag cell' = childFlag)
    by (unfold cell'; rewrite getChildFlag_set; apply Z.mod_small; lia).
  pose proof (packUniqueID_u64 parentID cellID childFlag) as Hr.
  repeat split; try assumption; try apply Hr.
  - revert HP HC HF. unfold getParentID, getCellID, getChildFlag, u32, u8.
    subst cell'. unfold setUniqueID. cbn [uniqueID set_uniqueID].
    unfold is_u64 in Hr.
    set (id := packUniqueID parentID cellID childFlag) in *.
    change 0xFFFFFFFF with (Z.ones 32). change 0x7FFFFFFF with (Z.ones 31).
    change (Z.land id 0x1) with (Z.land id (Z.ones 1)).
    rewrite !Z.land_ones, !Z.shiftr_div_pow2 by lia.
    intros HP HC HF. Z.div_mod_to_equations. lia.
  - subst cell'. now destruct cell.
Qed.

(** The round trip on a concrete cell: parent 7, cell 5, second daughter. *)
Lemma setUniqueID_roundtrip_witness :
  let cell' := setUniqueID 7 5 1 default in
  getParentID cell' = 7 /\ getCellID cell' = 5 /\ getChildFlag cell' = 1 /\
  uniqueID cell' = 7 * 2 ^ 32 + 5 * 2 ^ 1 + 1 /\
  is_u64 (uniqueID cell') /\
  set_uniqueID (uniqueID default) cell' = default.
Proof.
  apply (setUniqueID_roundtrip 7 5 1 default).
  - unfold is_u32. lia.
  - lia.
  - right. reflexivity.
Defined.

End UniqueID.

Section RecordLayout.
Import Layout.

(** C6.  With GLM's vectors aligned to 4 or to 16 bytes, [ComputeCell]
    occupies 160 bytes, a multiple of 16, its member [uniqueID] starts at
    offset 128, a multiple of 8, and both [static_assert]s hold. *)
Theorem ComputeCell_layout_contract (glm_align : Z) :
  glm_align = 4 \/ glm_align = 16 ->
  sizeof_ComputeCell glm_align = 160 /\
  sizeof_ComputeCell glm_align mod 16 = 0 /\
  offsetof_ComputeCell glm_align "uniqueID" = Some 128 /\
  (fun o => o mod 8) <$> offsetof_ComputeCell glm_align "uniqueID" = Some 0 /\
  static_asserts glm_align = true.
Proof.
  intros [-> | ->]; repeat split; vm_compute; reflexivity.
Qed.

Lemma ComputeCell_layout_contract_witness :
  sizeof_ComputeCell 4 = 160 /\
  sizeof_ComputeCell 4 mod 16 = 0 /\
  offsetof_ComputeCell 4 "uniqueID" = Some 128 /\
  (fun o => o mod 8) <$> offsetof_ComputeCell 4 "uniqueID" = Some 0 /\
  static_asserts 4 = true.
Proof.
  apply (ComputeCell_layout_contract 4). left. reflexivity.
Defined.

End RecordLayout.

Section LodConfiguration.
Import CellManager.

(** C8.  A freshly constructed manager has the four LOD thresholds 20, 60,
    150 and 250, each held exactly as a [float], in strictly ascending
    order. *)
Theorem lodDistances_default_ascending
  (max_cells : Z) (spawn_radius : Float32.float) (statsAddr : addr) :
  lodDistances (default max_cells spawn_radius statsAddr)
  = lodDistances_default /\
  map Float32.to_int_exact lodDistances_default
  = [Some 20; Some 60; Some 150; Some 250] /\
  strictly_ascending lodDistances_default = true.
Proof.
  repeat split; vm_compute; reflexivity.
Qed.

End LodConfiguration.

(** Case analysis on the member function run; the two barrier wrappers
    only rebuild the [barrierBatch] member. *)
Ltac run_cases o cm e :=
  destruct o; cbn [CellManager.run]; try reflexivity;
  [ unfold CellManager.addBarrier;
    now destruct (BarrierBatch.addBarrier _ (CellManager.barrierBatch cm) e)
  | unfold CellManager.flushBarriers;
    now destruct (BarrierBatch.flush (CellManager.barrierBatch cm) e) ].

Section BufferRotation.
Import CellManager.

Lemma int_add_exact a b : is_int (a + b) -> int_add a b = a + b.
Proof.
  unfold is_int, INT_MIN, INT_MAX, int_add, int_wrap. intros H.
  rewrite Z.mod_small; lia.
Qed.

Lemma getRotatedIndex_mod (index : Z) (cm : t) :
  0 <= index -> 0 <= bufferRotation cm ->
  index + bufferRotation cm <= INT_MAX ->
  getRotatedIndex index 3 cm = (index + bufferRotation cm) mod 3.
Proof.
  intros Hi Hr Hmax. unfold getRotatedIndex, int_rem.
  rewrite int_add_exact by (unfold is_int, INT_MIN, INT_MAX in *; lia).
  apply Z.rem_mod_nonneg; lia.
Qed.

Lemma bufferRotation_rotate (cm : t) :
  bufferRotation (rotateBuffers cm) = getRotatedIndex 1 3 cm.
Proof. reflexivity. Qed.

Lemma cellBuffer_rotate (cm : t) : cellBuffer (rotateBuffers cm) = cellBuffer cm.
Proof. reflexivity. Qed.

Lemma rotateBuffers_range (cm : t) :
  0 <= bufferRotation cm < INT_MAX ->
  0 <= bufferRotation (rotateBuffers cm) < 3.
Proof.
  intros H. rewrite bufferRotation_rotate, getRotatedIndex_mod by lia.
  apply Z.mod_pos_bound. lia.
Qed.

Lemma run_bufferRotation (o : op) (cm : t) (e : env) :
  bufferRotation (fst (run o (cm, e)))
  = match o with
    | OpRotateBuffers => getRotatedIndex 1 3 cm
    | _ => bufferRotation cm
    end.
Proof.
  run_cases o cm e.
Qed.

(** X18.  Invariant: whatever member functions of the header run on a
    freshly initialised manager, its rotation counter stays in
    {0, 1, 2}. *)
Lemma bufferRotation_invariant
  (max_cells : Z) (spawn_radius : Float32.float) (statsAddr : addr)
  (os : list op) (e : env) :
  0 <= bufferRotation
         (fst (run_all os (default max_cells spawn_radius statsAddr, e)))
    < 3.
Proof.
  assert (G : forall os cm e, 0 <= bufferRotation cm < 3 ->
              0 <= bufferRotation (fst (run_all os (cm, e))) < 3).
  { clear. induction os as [| o os IH]; intros cm e Hcm; [exact Hcm |].
    unfold run_all in *. cbn [fold_left].
    destruct (run o (cm, e)) as [cm1 e1] eqn:E. apply IH.
    change cm1 with (fst (cm1, e1)). rewrite <- E, run_bufferRotation.
    destruct o; try exact Hcm.
    rewrite <- bufferRotation_rotate. apply rotateBuffers_range.
    unfold INT_MAX. lia. }
  apply G. cbn. lia.
Qed.

(** C3.  [rotateBuffers] replaces the rotation counter by its successor
    modulo 3, and three calls in a row select the same read slot and the
    same write slot of [cellBuffer] as before; from a counter in {0, 1, 2}
    they restore the manager itself. *)
Theorem rotateBuffers_three_times (cm : t) :
  0 <= bufferRotation cm < INT_MAX ->
  let cm3 := rotateBuffers (rotateBuffers (rotateBuffers cm)) in
  bufferRotation (rotateBuffers cm) = (bufferRotation cm + 1) mod 3 /\
  getRotatedIndex 0 3 cm3 = getRotatedIndex 0 3 cm /\
  getRotatedIndex 1 3 cm3 = getRotatedIndex 1 3 cm /\
  getCellReadBuffer cm3 = getCellReadBuffer cm /\
  getCellWriteBuffer cm3 = getCellWriteBuffer cm /\
  (bufferRotation cm < 3 -> cm3 = cm).
Proof.
  intros Hr cm3.
  pose proof (rotateBuffers_range cm Hr) as H1.
  assert (H1' : 0 <= bufferRotation (rotateBuffers cm) < INT_MAX)
    by (unfold INT_MAX; lia).
  pose proof (rotateBuffers_range _ H1') as H2.
  assert (H2' : 0 <= bufferRotation (rotateBuffers (rotateBuffers cm)) < INT_MAX)
    by (unfold INT_MAX; lia).
  pose proof (rotateBuffers_range _ H2') as H3. fold cm3 in H3.
  assert (E1 : bufferRotation (rotateBuffers cm) = (bufferRotation cm + 1) mod 3).
  { rewrite bufferRotation_rotate, getRotatedIndex_mod by lia.
    f_equal. lia. }
  assert (E2 : bufferRotation (rotateBuffers (rotateBuffers cm))
               = (bufferRotation (rotateBuffers cm) + 1) mod 3).
  { rewrite (bufferRotation_rotate (rotateBuffers cm)), getRotatedIndex_mod by lia.
    f_equal. lia. }
  assert (E3 : bufferRotation cm3
               = (bufferRotation (rotateBuffers (rotateBuffers cm)) + 1) mod 3).
  { unfold cm3. rewrite (bufferRotation_rotate (rotateBuffers (rotateBuffers cm))),
      getRotatedIndex_mod by lia.
    f_equal. lia. }
  assert (Erd : getRotatedIndex 0 3 cm3 = getRotatedIndex 0 3 cm).
  { unfold INT_MAX in *. rewrite !getRotatedIndex_mod by (unfold INT_MAX; lia).
    rewrite E3, E2, E1. Z.div_mod_to_equations. lia. }
  assert (Ewr : getRotatedIndex 1 3 cm3 = getRotatedIndex 1 3 cm).
  { unfold INT_MAX in *. rewrite !getRotatedIndex_mod by (unfold INT_MAX; lia).
    rewrite E3, E2, E1. Z.div_mod_to_equations. lia. }
  repeat split; try assumption.
  - unfold getCellReadBuffer. rewrite Erd. reflexivity.
  - unfold getCellWriteBuffer. rewrite Ewr. reflexivity.
  - intros Hlt.
    assert (E : bufferRotation cm3 = bufferRotation cm).
    { rewrite E3, E2, E1. Z.div_mod_to_equations. lia. }
    destruct cm as [cb ib r]. cbn in E |- *. 
    unfold cm3, rotateBuffers, set_bufferRotation in *. cbn in *.
    now rewrite E.
Qed.

Lemma rotateBuffers_three_times_witness :
  let cm := set_bufferRotation 2 (default 1000 Float32.one 1%positive) in
  let cm3 := rotateBuffers (rotateBuffers (rotateBuffers cm)) in
  bufferRotation (rotateBuffers cm) = (bufferRotation cm + 1) mod 3 /\
  getRotatedIndex 0 3 cm3 = getRotatedIndex 0 3 cm /\
  getRotatedIndex 1 3 cm3 = getRotatedIndex 1 3 cm /\
  getCellReadBuffer cm3 = getCellReadBuffer cm /\
  getCellWriteBuffer cm3 = getCellWriteBuffer cm /\
  (bufferRotation cm < 3 -> cm3 = cm).
Proof.
  apply (rotateBuffers_three_times
           (set_bufferRotation 2 (default 1000 Float32.one 1%positive))).
  cbn. unfold INT_MAX. lia.
Defined.

Lemma array_get_lookup (a : list Z) (i : Z) :
  0 <= i -> array_get a i = a !! Z.to_nat i.
Proof.
  intros Hi. unfold array_get. now destruct (Z.leb_spec 0 i); [| lia].
Qed.

(** C9.  The read slot and the write slot are two different slots of the
    three-element [cellBuffer], [getCellReadBuffer] and
    [getCellWriteBuffer] return the handles stored in exactly those two
    slots, so with three distinct handles the read target is never the
    write target, and one [rotateBuffers] makes the former write slot the
    read slot. *)
Theorem read_write_slots_distinct (cm : t) :
  0 <= bufferRotation cm < INT_MAX ->
  let rd := getRotatedIndex 0 3 cm in
  let wr := getRotatedIndex 1 3 cm in
  0 <= rd < 3 /\ 0 <= wr < 3 /\ rd <> wr /\
  getRotatedIndex 0 3 (rotateBuffers cm) = wr /\
  getCellReadBuffer (rotateBuffers cm) = getCellWriteBuffer cm /\
  (length (cellBuffer cm) = 3%nat ->
   is_Some (getCellReadBuffer cm) /\ is_Some (getCellWriteBuffer cm)) /\
  getCellReadBuffer cm = cellBuffer cm !! Z.to_nat rd /\
  getCellWriteBuffer cm = cellBuffer cm !! Z.to_nat wr /\
  getCellReadBuffer (rotateBuffers cm) = cellBuffer cm !! Z.to_nat wr /\
  (length (cellBuffer cm) = 3%nat -> NoDup (cellBuffer cm) ->
   getCellReadBuffer cm <> getCellWriteBuffer cm).
Proof.
  intros Hr rd wr.
  assert (Erd : rd = bufferRotation cm mod 3)
    by (unfold rd; rewrite getRotatedIndex_mod by lia; f_equal; lia).
  assert (Ewr : wr = (1 + bufferRotation cm) mod 3)
    by (unfold wr; rewrite getRotatedIndex_mod by lia; reflexivity).
  assert (Hrd : 0 <= rd < 3) by (rewrite Erd; apply Z.mod_pos_bound; lia).
  assert (Hwr : 0 <= wr < 3) by (rewrite Ewr; apply Z.mod_pos_bound; lia).
  assert (Hne : rd <> wr)
    by (rewrite Erd, Ewr; Z.div_mod_to_equations; lia).
  assert (Enew : getRotatedIndex 0 3 (rotateBuffers cm) = wr).
  { rewrite getRotatedIndex_mod.
    - rewrite bufferRotation_rotate. fold wr. cbn [Z.add]. apply Z.mod_small, Hwr.
    - lia.
    - rewrite bufferRotation_rotate. fold wr. lia.
    - rewrite bufferRotation_rotate. fold wr. unfold INT_MAX. lia. }
  assert (Gr : getCellReadBuffer cm = cellBuffer cm !! Z.to_nat rd)
    by (unfold getCellReadBuffer; fold rd; apply array_get_lookup; lia).
  assert (Gw : getCellWriteBuffer cm = cellBuffer cm !! Z.to_nat wr)
    by (unfold getCellWriteBuffer; fold wr; apply array_get_lookup; lia).
  assert (Gn : getCellReadBuffer (rotateBuffers cm) = getCellWriteBuffer cm).
  { unfold getCellReadBuffer, getCellWriteBuffer.
    rewrite cellBuffer_rotate, Enew. reflexivity. }
  assert (Sr : length (cellBuffer cm) = 3%nat ->
               is_Some (getCellReadBuffer cm)).
  { intros Hlen. rewrite Gr. apply lookup_lt_is_Some. lia. }
  assert (Sw : length (cellBuffer cm) = 3%nat ->
               is_Some (getCellWriteBuffer cm)).
  { intros Hlen. rewrite Gw. apply lookup_lt_is_Some. lia. }
  split; [exact Hrd |]. split; [exact Hwr |]. split; [exact Hne |].
  split; [exact Enew |]. split; [exact Gn |].
  split; [intros Hlen; split; auto |].
  split; [exact Gr |]. split; [exact Gw |].
  split; [rewrite Gn; exact Gw |].
  intros Hlen Hnd Heq.
  destruct (Sr Hlen) as [x Hx].
  assert (Hx' : getCellWriteBuffer cm = Some x) by (rewrite <- Heq; exact Hx).
  rewrite Gr in Hx. rewrite Gw in Hx'.
  pose proof (NoDup_lookup _ _ _ _ Hnd Hx Hx') as E.
  apply Hne. lia.
Qed.

(** A manager whose three cell buffers have the handles 10, 20 and 30. *)
Lemma read_write_slots_distinct_witness :
  let cm := Make [10; 20; 30] 0 0 0 0 0 0 lodDistances_default true true 0 0
              Float32.one 1000 BarrierBatch.default 1%positive in
  let rd := getRotatedIndex 0 3 cm in
  let wr := getRotatedIndex 1 3 cm in
  0 <= rd < 3 /\ 0 <= wr < 3 /\ rd <> wr /\
  getRotatedIndex 0 3 (rotateBuffers cm) = wr /\
  getCellReadBuffer (rotateBuffers cm) = getCellWriteBuffer cm /\
  (length (cellBuffer cm) = 3%nat ->
   is_Some (getCellReadBuffer cm) /\ is_Some (getCellWriteBuffer cm)) /\
  getCellReadBuffer cm = cellBuffer cm !! Z.to_nat rd /\
  getCellWriteBuffer cm = cellBuffer cm !! Z.to_nat wr /\
  getCellReadBuffer (rotateBuffers cm) = cellBuffer cm !! Z.to_nat wr /\
  (length (cellBuffer cm) = 3%nat -> NoDup (cellBuffer cm) ->
   getCellReadBuffer cm <> getCellWriteBuffer cm).
Proof.
  apply (read_write_slots_distinct
           (Make [10; 20; 30] 0 0 0 0 0 0 lodDistances_default true true 0 0
              Float32.one 1000 BarrierBatch.default 1%positive)).
  cbn. unfold INT_MAX. lia.
Defined.

End BufferRotation.

Section BarrierStatistics.
Import BarrierStats.

Lemma int_incr_exact a : INT_MIN <= a < INT_MAX -> int_incr a = a + 1.
Proof.
  unfold INT_MIN, INT_MAX. intros H. unfold int_incr.
  apply int_add_exact. unfold is_int, INT_MIN, INT_MAX. lia.
Qed.

(** C10.  [updateEfficiency] never divides by a zero count: the
    instrumented run always succeeds and agrees with the plain one.  With
    no barrier recorded the statistics are left as they are; with a
    positive total the efficiency becomes the [float] quotient of the
    batched count by the total, and the three counters keep their
    values. *)
Theorem updateEfficiency_guarded (s : t) :
  updateEfficiency_checked s = Some (updateEfficiency s) /\
  (totalBarriers s = 0 -> updateEfficiency s = s) /\
  (0 < totalBarriers s ->
   updateEfficiency s
   = Make (totalBarriers s) (batchedBarriers s) (flushCalls s)
       (Float32.div (Float32.of_int (batchedBarriers s))
                    (Float32.of_int (totalBarriers s)))).
Proof.
  unfold updateEfficiency_checked, updateEfficiency, div_by_int.
  destruct (Z.ltb_spec 0 (totalBarriers s)) as [Hpos | Hle].
  - destruct (Z.eqb_spec (totalBarriers s) 0) as [E | _]; [lia |].
    split; [reflexivity |]. split; [lia | reflexivity].
  - split; [reflexivity |]. split; [reflexivity | lia].
Qed.

Lemma updateEfficiency_guarded_witness :
  updateEfficiency (Make 0 0 2 Float32.one) = Make 0 0 2 Float32.one /\
  updateEfficiency (Make 3 1 0 Float32.zero)
  = Make 3 1 0 (S754_finite false 11184811 (-25)).
Proof.
  split.
  - apply (updateEfficiency_guarded (Make 0 0 2 Float32.one)). reflexivity.
  - apply (updateEfficiency_guarded (Make 3 1 0 Float32.zero)). reflexivity.
Defined.

End BarrierStatistics.

Section BarrierBatching.
Import BarrierStats BarrierBatch.

(** Merging a request changes nothing beyond the requested kind exactly when
    the pending mask has no bit outside it. *)
Lemma lor_absorbs_iff (pending barrier : Z) :
  Z.lor pending barrier = barrier <-> Z.ldiff pending barrier = 0.
Proof.
  split; intros H; apply Z.bits_inj'; intros i Hi.
  - apply (f_equal (fun z => Z.testbit z i)) in H.
    rewrite Z.lor_spec in H. rewrite Z.ldiff_spec, Z.bits_0.
    destruct (Z.testbit pending i), (Z.testbit barrier i); auto.
  - apply (f_equal (fun z => Z.testbit z i)) in H.
    rewrite Z.ldiff_spec, Z.bits_0 in H. rewrite Z.lor_spec.
    destruct (Z.testbit pending i), (Z.testbit barrier i); auto.
Qed.

Lemma ldiff_nonzero_bit (pending barrier : Z) :
  (exists i, 0 <= i /\ Z.testbit pending i = true
             /\ Z.testbit barrier i = false) ->
  Z.ldiff pending barrier <> 0.
Proof.
  intros (i & Hi & Hp & Hb) E.
  apply (f_equal (fun z => Z.testbit z i)) in E.
  rewrite Z.ldiff_spec, Z.bits_0, Hp, Hb in E. discriminate.
Qed.

Lemma addBarrier_batch (barrier : Z) (b : BarrierBatch.t) (e : env) :
  fst (addBarrier barrier b e)
  = BarrierBatch.Make (Z.lor (pendingBarriers b) barrier) (needsFlush b) (stats b).
Proof. unfold addBarrier. now destruct (stats b). Qed.


(** C2, as the code has it.  [addBarrier] ORs the kind into the pending
    mask.  With a statistics object attached, [totalBarriers] goes up by
    one, and [batchedBarriers] goes up by one exactly when the pending mask
    held, before the call, a bit that is not in the requested kind; it
    stays as it is when the pending mask was empty, equal to the requested
    kind or contained in it.  Nothing else changes. *)
Theorem addBarrier_accounting
  (barrier : Z) (b : BarrierBatch.t) (e : env) (p : addr) (s : BarrierStats.t) :
  stats b = Some p -> mem e !! p = Some s ->
  INT_MIN <= totalBarriers s < INT_MAX ->
  INT_MIN <= batchedBarriers s < INT_MAX ->
  let b' := fst (addBarrier barrier b e) in
  let e' := snd (addBarrier barrier b e) in
  pendingBarriers b' = Z.lor (pendingBarriers b) barrier /\
  needsFlush b' = needsFlush b /\ stats b' = stats b /\
  gl e' = gl e /\
  (forall q, q <> p -> mem e' !! q = mem e !! q) /\
  exists s',
    mem e' !! p = Some s' /\
    totalBarriers s' = totalBarriers s + 1 /\
    batchedBarriers s'
    = (if Z.ldiff (pendingBarriers b) barrier =? 0
       then batchedBarriers s else batchedBarriers s + 1) /\
    (batchedBarriers s' = batchedBarriers s + 1
     <-> Z.ldiff (pendingBarriers b) barrier <> 0) /\
    flushCalls s' = flushCalls s /\
    barrierEfficiency s' = barrierEfficiency s.
Proof.
  intros Hst Hs Ht Hb b' e'. subst b' e'.
  rewrite addBarrier_batch. unfold addBarrier. rewrite Hst.
  cbn [fst snd pendingBarriers needsFlush stats mem gl set_mem].
  repeat (split; [reflexivity |]).
  split; [intros q Hq; now rewrite lookup_alter_ne |].
  rewrite lookup_alter_eq, Hs. cbn [fmap option_fmap option_map].
  eexists. split; [reflexivity |].
  destruct (Z.eqb_spec (Z.lor (pendingBarriers b) barrier) barrier) as [E | E];
    cbn [negb].
  - apply lor_absorbs_iff in E. rewrite E. cbn.
    rewrite int_incr_exact by lia. repeat split; try reflexivity; lia.
  - assert (N : Z.ldiff (pendingBarriers b) barrier <> 0)
      by (intros F; apply E, lor_absorbs_iff, F).
    destruct (Z.eqb_spec (Z.ldiff (pendingBarriers b) barrier) 0); [easy |].
    cbn. rewrite !int_incr_exact by lia. repeat split; try reflexivity; auto.
Qed.

(** Two kinds pending, a third requested through an attached, fresh
    statistics object: one barrier counted, and counted as batched. *)
Lemma addBarrier_accounting_witness :
  let b := BarrierBatch.Make 0x2080 false (Some 1%positive) in
  let e := Env {[ 1%positive := BarrierStats.default ]} [] in
  let b' := fst (addBarrier 0x1 b e) in
  let e' := snd (addBarrier 0x1 b e) in
  pendingBarriers b' = Z.lor (pendingBarriers b) 0x1 /\
  needsFlush b' = needsFlush b /\ stats b' = stats b /\
  gl e' = gl e /\
  (forall q, q <> 1%positive -> mem e' !! q = mem e !! q) /\
  exists s',
    mem e' !! 1%positive = Some s' /\
    totalBarriers s' = totalBarriers BarrierStats.default + 1 /\
    batchedBarriers s'
    = (if Z.ldiff (pendingBarriers b) 0x1 =? 0
       then batchedBarriers BarrierStats.default
       else batchedBarriers BarrierStats.default + 1) /\
    (batchedBarriers s' = batchedBarriers BarrierStats.default + 1
     <-> Z.ldiff (pendingBarriers b) 0x1 <> 0) /\
    flushCalls s' = flushCalls BarrierStats.default /\
    barrierEfficiency s' = barrierEfficiency BarrierStats.default.
Proof.
  apply (addBarrier_accounting 0x1
           (BarrierBatch.Make 0x2080 false (Some 1%positive))
           (Env {[ 1%positive := BarrierStats.default ]} [])
           1%positive BarrierStats.default).
  - reflexivity.
  - apply lookup_singleton_eq.
  - cbn. unfold INT_MIN, INT_MAX. lia.
  - cbn. unfold INT_MIN, INT_MAX. lia.
Defined.

(** C2, as the claim words it, fails: a request for the kind that is
    already the whole pending mask (here GL_SHADER_STORAGE_BARRIER_BIT,
    0x2000) finds the mask non-empty and is counted in [totalBarriers],
    yet [batchedBarriers] stays where it was. *)
Lemma addBarrier_same_kind_not_batched :
  let b := BarrierBatch.Make 0x2000 false (Some 1%positive) in
  let s := BarrierStats.default in
  let e := Env {[ 1%positive := s ]} [] in
  let s' := BarrierStats.Make 1 0 0 Float32.zero in
  mem (snd (addBarrier 0x2000 b e)) !! 1%positive = Some s' /\
  pendingBarriers (fst (addBarrier 0x2000 b e)) = 0x2000 /\
  totalBarriers s' = totalBarriers s + 1 /\
  ~ (batchedBarriers s' = batchedBarriers s + 1 <-> pendingBarriers b <> 0).
Proof.
  cbn zeta. split; [| split; [reflexivity | split; [reflexivity |]]].
  - unfold addBarrier.
    cbn [stats pendingBarriers needsFlush mem set_mem fst snd].
    rewrite lookup_alter_eq, lookup_singleton_eq. reflexivity.
  - cbn. intros [_ H]. discriminate H. discriminate.
Qed.

(** A sequence of requests leaves the OR of all of them pending. *)
Lemma addBarriers_pending (kinds : list Z) (b : BarrierBatch.t) (e : env) :
  pendingBarriers (fst (addBarriers kinds (b, e)))
  = fold_left Z.lor kinds (pendingBarriers b).
Proof.
  revert b e. induction kinds as [| k kinds IH]; intros b e; [reflexivity |].
  unfold addBarriers in *. cbn [fold_left fst snd].
  destruct (addBarrier k b e) as [b1 e1] eqn:E.
  rewrite IH. f_equal.
  change b1 with (fst (b1, e1)). rewrite <- E, addBarrier_batch. reflexivity.
Qed.

Lemma addBarriers_gl (kinds : list Z) (b : BarrierBatch.t) (e : env) :
  gl (snd (addBarriers kinds (b, e))) = gl e.
Proof.
  revert b e. induction kinds as [| k kinds IH]; intros b e; [reflexivity |].
  unfold addBarriers in *. cbn [fold_left fst snd].
  destruct (addBarrier k b e) as [b1 e1] eqn:E.
  rewrite IH. change e1 with (snd (b1, e1)). rewrite <- E.
  unfold addBarrier. now destruct (stats b).
Qed.

Lemma flush_batch (b : BarrierBatch.t) (e : env) :
  fst (flush b e) = BarrierBatch.Make 0 false (stats b).
Proof.
  unfold flush.
  destruct (Z.eqb_spec (pendingBarriers b) 0) as [E | N]; cbn [negb fst].
  - now rewrite E.
  - reflexivity.
Qed.

Lemma flush_empty (b : BarrierBatch.t) (e : env) :
  pendingBarriers b = 0 -> snd (flush b e) = e.
Proof. unfold flush. now intros ->. Qed.

Lemma flush_gl_nonempty (b : BarrierBatch.t) (e : env) :
  pendingBarriers b <> 0 ->
  gl (snd (flush b e)) = gl e ++ [glMemoryBarrier (pendingBarriers b)].
Proof.
  intros N. unfold flush.
  destruct (Z.eqb_spec (pendingBarriers b) 0); [easy |]. cbn [negb snd].
  now destruct (stats b).
Qed.

(** C5.  [flush] always leaves the pending mask empty and [needsFlush]
    false.  A non-empty mask is handed, whole, to a single
    [glMemoryBarrier] call; with an empty mask no call is made and neither
    the statistics nor anything else in the environment changes. *)
Theorem flush_single_barrier (b : BarrierBatch.t) (e : env) :
  let b' := fst (flush b e) in
  let e' := snd (flush b e) in
  pendingBarriers b' = 0 /\ needsFlush b' = false /\ stats b' = stats b /\
  (if pendingBarriers b =? 0 then e' = e
   else gl e' = gl e ++ [glMemoryBarrier (pendingBarriers b)]).
Proof.
  cbn zeta. rewrite flush_batch. cbn [pendingBarriers needsFlush stats].
  repeat (split; [reflexivity |]).
  destruct (Z.eqb_spec (pendingBarriers b) 0) as [E | N].
  - now apply flush_empty.
  - now apply flush_gl_nonempty.
Qed.

(** After a flush of a non-empty mask through an attached statistics
    object, [flushCalls] has been bumped and the efficiency recomputed. *)
Lemma flush_counts (b : BarrierBatch.t) (e : env) (p : addr) (s : BarrierStats.t) :
  pendingBarriers b <> 0 -> stats b = Some p -> mem e !! p = Some s ->
  mem (snd (flush b e)) !! p
  = Some (updateEfficiency (incr_flushCalls s)).
Proof.
  intros N Hst Hs. unfold flush.
  destruct (Z.eqb_spec (pendingBarriers b) 0); [easy |]. cbn [negb snd].
  rewrite Hst. cbn [mem set_mem issue]. now rewrite lookup_alter_eq, Hs.
Qed.

(** X6.  Requests accumulated from a clear batch are covered by the one
    barrier the next flush issues: its mask is the OR of all requested
    kinds, and no barrier is issued when that OR is empty. *)
Lemma flush_covers_requests (kinds : list Z) (b : BarrierBatch.t) (e : env) :
  let st := addBarriers kinds (clear b, e) in
  let mask := fold_left Z.lor kinds 0 in
  gl (snd (flush (fst st) (snd st)))
  = if mask =? 0 then gl e else gl e ++ [glMemoryBarrier mask].
Proof.
  intros st mask.
  assert (Ep : pendingBarriers (fst st) = mask)
    by (unfold st; rewrite addBarriers_pending; reflexivity).
  assert (Eg : gl (snd st) = gl e) by apply addBarriers_gl.
  destruct (Z.eqb_spec mask 0) as [E | N].
  - rewrite flush_empty by congruence. exact Eg.
  - rewrite flush_gl_nonempty by congruence. now rewrite Eg, Ep.
Qed.

End BarrierBatching.

Section CellLimit.
Import CellManager.

Lemma run_buffers (o : op) (cm : t) (e : env) :
  buffers (fst (run o (cm, e))) = buffers cm.
Proof.
  run_cases o cm e.
Qed.

Lemma run_cellLimit (o : op) (cm : t) (e : env) :
  getCellLimit (fst (run o (cm, e)))
  = match o with
    | OpSetCellLimit limit => limit
    | _ => getCellLimit cm
    end.
Proof.
  run_cases o cm e.
Qed.

Lemma setCellLimit_only_limit (limit : Z) (cm : t) :
  set_cellLimit (cellLimit cm) (setCellLimit limit cm) = cm.
Proof. now destruct cm. Qed.

(** C4, as the code has it.  [MAX_CELLS] is a constant of the build and the
    limit of a fresh manager.  The limit in force, [cellLimit], is whatever
    the last [setCellLimit] call assigned, and [MAX_CELLS] if there was
    none; the other member functions defined in the header leave it alone,
    and none of them, [setCellLimit] included, touches a buffer handle. *)
Theorem cellLimit_follows_setCellLimit
  (max_cells : Z) (spawn_radius : Float32.float) (statsAddr : addr)
  (os : list op) (cm : t) (e : env) :
  getCellLimit (default max_cells spawn_radius statsAddr)
  = MAX_CELLS max_cells /\
  getCellLimit (fst (run_all os (cm, e))) = last_limit os (getCellLimit cm) /\
  buffers (fst (run_all os (cm, e))) = buffers cm.
Proof.
  split; [reflexivity |].
  revert cm e. induction os as [| o os IH]; intros cm e; [split; reflexivity |].
  unfold run_all, last_limit in *. cbn [fold_left].
  destruct (run o (cm, e)) as [cm1 e1] eqn:E.
  destruct (IH cm1 e1) as [IHl IHb]. rewrite IHl, IHb.
  change cm1 with (fst (cm1, e1)). rewrite <- E.
  rewrite run_cellLimit, run_buffers. split; [| reflexivity].
  now destruct o.
Qed.

(** C4, as the claim words it, fails: on a fresh manager with
    [MAX_CELLS] = 100000, [setCellLimit(50)] lowers the limit to 50 and
    changes nothing else: every buffer handle is the one it was and no GL
    call is issued. *)
Lemma setCellLimit_changes_limit_in_place :
  let cm := default 100000 Float32.one 1%positive in
  let e := Env ∅ [] in
  let st' := run (OpSetCellLimit 50) (cm, e) in
  getCellLimit cm = MAX_CELLS 100000 /\
  getCellLimit (fst st') = 50 /\
  getCellLimit (fst st') <> getCellLimit cm /\
  buffers (fst st') = buffers cm /\
  set_cellLimit (cellLimit cm) (fst st') = cm /\
  snd st' = e.
Proof.
  cbn zeta. repeat split. discriminate.
Qed.

End CellLimit.

(** * Further properties of the unique id *)

(** Case analysis on every comparison of bit positions in the goal. *)
Ltac by_ranges :=
  repeat match goal with
    | |- context [?a <? ?b] => destruct (Z.ltb_spec a b); try lia
    | |- context [?a <=? ?b] => destruct (Z.leb_spec a b); try lia
    | |- context [?a =? ?b] => destruct (Z.eqb_spec a b); try lia
    end;
  cbn [andb orb]; rewrite ?andb_false_r, ?orb_false_r, ?andb_true_r;
  try reflexivity.

Section UniqueIDWords.
Import ComputeCell.

Lemma getParentID_bits (c : t) (i : Z) :
  Z.testbit (getParentID c) i
  = (0 <=? i) && (i <? 32) && Z.testbit (uniqueID c) (i + 32).
Proof.
  unfold getParentID, u32.
  change 0xFFFFFFFF with (Z.ones 32).
  rewrite Z.land_ones, Z.mod_mod by lia. rewrite <- Z.land_ones by lia.
  destruct (Z.lt_ge_cases i 0) as [Hneg | Hpos].
  { rewrite Z.testbit_neg_r by lia. by_ranges. }
  rewrite Z.land_spec, Z.shiftr_spec, testbit_mask by lia.
  by_ranges.
Qed.

Lemma getCellID_bits (c : t) (i : Z) :
  Z.testbit (getCellID c) i
  = (0 <=? i) && (i <? 31) && Z.testbit (uniqueID c) (i + 1).
Proof.
  unfold getCellID, u32.
  change 0x7FFFFFFF with (Z.ones 31).
  rewrite Z.mod_small.
  2:{ rewrite Z.land_ones by lia.
      pose proof (Z.mod_pos_bound (Z.shiftr (uniqueID c) 1) (2 ^ 31)). lia. }
  destruct (Z.lt_ge_cases i 0) as [Hneg | Hpos].
  { rewrite Z.testbit_neg_r by lia. by_ranges. }
  rewrite Z.land_spec, Z.shiftr_spec, testbit_mask by lia.
  by_ranges.
Qed.

Lemma getChildFlag_bits (c : t) (i : Z) :
  Z.testbit (getChildFlag c) i = (i =? 0) && Z.testbit (uniqueID c) 0.
Proof.
  unfold getChildFlag, u8.
  change (Z.land (uniqueID c) 0x1) with (Z.land (uniqueID c) (Z.ones 1)).
  rewrite Z.mod_small.
  2:{ rewrite Z.land_ones by lia.
      pose proof (Z.mod_pos_bound (uniqueID c) (2 ^ 1)). lia. }
  destruct (Z.lt_ge_cases i 0) as [Hneg | Hpos].
  { rewrite Z.testbit_neg_r by lia. by_ranges. }
  rewrite Z.land_spec, testbit_mask by lia.
  by_ranges. now subst.
Qed.

(** X1.  [setUniqueID] masks rather than rejects: whatever the arguments,
    the decoders give back the parent id modulo 2^32, the cell id modulo
    2^31 and the flag modulo 2, so an over-wide cell id or flag loses its
    high bits and never leaks into a neighbouring field. *)
Theorem setUniqueID_truncates (parentID cellID childFlag : Z) (cell : t) :
  let cell' := setUniqueID parentID cellID childFlag cell in
  getParentID cell' = parentID mod 2 ^ 32 /\
  getCellID cell' = cellID mod 2 ^ 31 /\
  getChildFlag cell' = childFlag mod 2.
Proof.
  cbn zeta. split; [apply getParentID_set |].
  split; [apply getCellID_set | apply getChildFlag_set].
Qed.

(** X2.  Decoding then re-encoding is the identity: a cell whose id is a
    64-bit word is unchanged by [setUniqueID] applied to its own parent id,
    cell id and child flag. *)
Theorem setUniqueID_of_getters (cell : t) :
  is_u64 (uniqueID cell) ->
  setUniqueID (getParentID cell) (getCellID cell) (getChildFlag cell) cell
  = cell.
Proof.
  intros Hid.
  assert (E : packUniqueID (getParentID cell) (getCellID cell)
                (getChildFlag cell) = uniqueID cell).
  { apply Z.bits_inj'. intros i Hi.
    rewrite packUniqueID_bits, getParentID_bits, getCellID_bits,
      getChildFlag_bits.
    replace (i - 32 + 32) with i by lia. replace (i - 1 + 1) with i by lia.
    destruct (Z.ltb_spec i 64) as [Hlt | Hge].
    - destruct (Z.eqb_spec i 0) as [-> | Hne].
      + cbn. now destruct (Z.testbit (uniqueID cell) 0).
      + by_ranges; now destruct (Z.testbit (uniqueID cell) i).
    - assert (Hhigh : Z.testbit (uniqueID cell) i = false).
      { unfold is_u64 in Hid.
        rewrite <- (Z.mod_small (uniqueID cell) (2 ^ 64)) by lia.
        apply Z.mod_pow2_bits_high. lia. }
      rewrite Hhigh. by_ranges. }
  unfold setUniqueID. rewrite E. now destruct cell.
Qed.

Lemma setUniqueID_of_getters_witness :
  let cell := set_uniqueID 0xFFFFFFFF00000003 default in
  setUniqueID (getParentID cell) (getCellID cell) (getChildFlag cell) cell
  = cell.
Proof.
  apply (setUniqueID_of_getters (set_uniqueID 0xFFFFFFFF00000003 default)).
  unfold is_u64. cbn. lia.
Defined.

(** X3.  Packing is injective on well-formed ids: two triples of a 32-bit
    parent id, a 31-bit cell id and a one-bit flag that pack to the same
    word are the same triple. *)
Theorem packUniqueID_injective (p c f p' c' f' : Z) :
  is_u32 p -> 0 <= c < 2 ^ 31 -> 0 <= f <= 1 ->
  is_u32 p' -> 0 <= c' < 2 ^ 31 -> 0 <= f' <= 1 ->
  packUniqueID p c f = packUniqueID p' c' f' ->
  p = p' /\ c = c' /\ f = f'.
Proof.
  unfold is_u32. intros Hp Hc Hf Hp' Hc' Hf' E.
  pose proof (getParentID_set p c f default) as P.
  pose proof (getCellID_set p c f default) as C.
  pose proof (getChildFlag_set p c f default) as F.
  unfold setUniqueID in P, C, F. rewrite E in P, C, F.
  fold (setUniqueID p' c' f' default) in P, C, F.
  rewrite getParentID_set in P. rewrite getCellID_set in C.
  rewrite getChildFlag_set in F.
  rewrite !Z.mod_small in P, C, F by lia. auto.
Qed.

Lemma packUniqueID_injective_witness : 7 = 7 /\ 5 = 5 /\ 1 = 1.
Proof.
  apply (packUniqueID_injective 7 5 1 7 5 1); unfold is_u32;
    first [lia | reflexivity].
Defined.

(** X4.  Whatever word is stored in [uniqueID], the decoders stay inside
    their fields: the parent id is a 32-bit value, the cell id is below
    2^31 and the child flag is 0 or 1. *)
Theorem getters_in_range (cell : t) :
  is_u32 (getParentID cell) /\
  0 <= getCellID cell < 2 ^ 31 /\
  (getChildFlag cell = 0 \/ getChildFlag cell = 1).
Proof.
  unfold is_u32, getParentID, getCellID, getChildFlag, u32, u8.
  change 0xFFFFFFFF with (Z.ones 32). change 0x7FFFFFFF with (Z.ones 31).
  change (Z.land (uniqueID cell) 0x1) with (Z.land (uniqueID cell) (Z.ones 1)).
  rewrite !Z.land_ones by lia.
  pose proof (Z.mod_pos_bound (Z.shiftr (uniqueID cell) 32) (2 ^ 32)).
  pose proof (Z.mod_pos_bound (Z.shiftr (uniqueID cell) 1) (2 ^ 31)).
  pose proof (Z.mod_pos_bound (uniqueID cell) (2 ^ 1)).
  rewrite (Z.mod_small (_ mod 2 ^ 32)), (Z.mod_small (_ mod 2 ^ 31)),
    (Z.mod_small (_ mod 2 ^ 1)) by lia.
  lia.
Qed.

End UniqueIDWords.

(** * How barrier requests, flushes and clears compose *)

Section BarrierComposition.
Import BarrierStats BarrierBatch.

Lemma fold_lor_bit (l : list Z) (a i : Z) :
  Z.testbit (fold_left Z.lor l a) i
  = Z.testbit a i || existsb (fun k => Z.testbit k i) l.
Proof.
  revert a. induction l as [| k l IH]; intros a; cbn [fold_left existsb].
  - now rewrite orb_false_r.
  - now rewrite IH, Z.lor_spec, orb_assoc.
Qed.

(** X5.  The pending mask left by a run of requests depends only on which
    kinds were requested, not on their order or on how often each one was
    asked for. *)
Theorem addBarriers_mask_by_kind_set
  (kinds kinds' : list Z) (b : BarrierBatch.t) (e e' : env) :
  (forall k, In k kinds <-> In k kinds') ->
  pendingBarriers (fst (addBarriers kinds (b, e)))
  = pendingBarriers (fst (addBarriers kinds' (b, e'))).
Proof.
  intros Hset. rewrite !addBarriers_pending.
  apply Z.bits_inj'. intros i _. rewrite !fold_lor_bit. f_equal.
  apply eq_true_iff_eq. rewrite !existsb_exists.
  split; intros (k & Hin & Hk); exists k; split; try assumption;
    now apply Hset.
Qed.

Lemma addBarriers_mask_by_kind_set_witness :
  let b := BarrierBatch.default in
  let e := Env ∅ [] in
  pendingBarriers (fst (addBarriers [0x2000; 0x1; 0x2000] (b, e)))
  = pendingBarriers (fst (addBarriers [0x1; 0x2000] (b, e))).
Proof.
  apply (addBarriers_mask_by_kind_set [0x2000; 0x1; 0x2000] [0x1; 0x2000]).
  intros k. cbn. intuition.
Defined.

(** X7.  A second [flush] right after a [flush] does nothing: no barrier
    is issued, no counter moves. *)
Theorem flush_twice (b : BarrierBatch.t) (e : env) :
  flush (fst (flush b e)) (snd (flush b e)) = flush b e.
Proof.
  pose proof (flush_batch b e) as Hb.
  destruct (flush b e) as [b1 e1]. cbn [fst snd] in *. now subst b1.
Qed.

(** What [clear] drops is never issued: a [flush] after a [clear],
    whatever was pending, makes no GL call and leaves the statistics
    alone. *)
Theorem clear_discards_pending (b : BarrierBatch.t) (e : env) :
  pendingBarriers (clear b) = 0 /\
  needsFlush (clear b) = false /\
  flush (clear b) e = (clear b, e).
Proof. repeat split. Qed.

(** X8.  A [flush] of a non-empty mask through an attached statistics
    object counts one more flush and refreshes the efficiency from the two
    barrier counters, which it leaves as they are; with no barrier counted
    yet the efficiency is left alone. *)
Theorem flush_statistics
  (b : BarrierBatch.t) (e : env) (p : addr) (s : BarrierStats.t) :
  pendingBarriers b <> 0 -> stats b = Some p -> mem e !! p = Some s ->
  INT_MIN <= flushCalls s < INT_MAX ->
  exists s',
    mem (snd (flush b e)) !! p = Some s' /\
    flushCalls s' = flushCalls s + 1 /\
    totalBarriers s' = totalBarriers s /\
    batchedBarriers s' = batchedBarriers s /\
    barrierEfficiency s'
    = (if 0 <? totalBarriers s
       then Float32.div (Float32.of_int (batchedBarriers s))
                        (Float32.of_int (totalBarriers s))
       else barrierEfficiency s).
Proof.
  intros N Hst Hs Hf. eexists. split; [apply flush_counts; eassumption |].
  unfold updateEfficiency, incr_flushCalls.
  cbn [totalBarriers batchedBarriers flushCalls barrierEfficiency].
  rewrite int_incr_exact by lia.
  destruct (0 <? totalBarriers s); repeat split.
Qed.

Lemma flush_statistics_witness :
  let b := BarrierBatch.Make 0x2000 true (Some 1%positive) in
  let s := BarrierStats.Make 4 1 0 Float32.zero in
  let e := Env {[ 1%positive := s ]} [] in
  exists s',
    mem (snd (flush b e)) !! 1%positive = Some s' /\
    flushCalls s' = flushCalls s + 1 /\
    totalBarriers s' = totalBarriers s /\
    batchedBarriers s' = batchedBarriers s /\
    barrierEfficiency s'
    = (if 0 <? totalBarriers s
       then Float32.div (Float32.of_int (batchedBarriers s))
                        (Float32.of_int (totalBarriers s))
       else barrierEfficiency s).
Proof.
  apply (flush_statistics (BarrierBatch.Make 0x2000 true (Some 1%positive))
           (Env {[ 1%positive := BarrierStats.Make 4 1 0 Float32.zero ]} [])
           1%positive (BarrierStats.Make 4 1 0 Float32.zero)).
  - discriminate.
  - reflexivity.
  - apply lookup_singleton_eq.
  - cbn. unfold INT_MIN, INT_MAX. lia.
Defined.

Lemma addBarrier_lookup
  (k : Z) (b : BarrierBatch.t) (e : env) (p : addr) (s : BarrierStats.t) :
  stats b = Some p -> mem e !! p = Some s ->
  mem (snd (addBarrier k b e)) !! p
  = Some (if negb (Z.lor (pendingBarriers b) k =? k)
          then incr_batchedBarriers (incr_totalBarriers s)
          else incr_totalBarriers s).
Proof.
  intros Hst Hs. unfold addBarrier. rewrite Hst.
  cbn [snd mem set_mem pendingBarriers].
  now rewrite lookup_alter_eq, Hs.
Qed.

Lemma addBarriers_counts_from
  (p : addr) (kinds : list Z) :
  forall (b : BarrierBatch.t) (e : env) (s : BarrierStats.t),
  stats b = Some p -> mem e !! p = Some s ->
  0 <= batchedBarriers s <= totalBarriers s ->
  totalBarriers s + Z.of_nat (length kinds) <= INT_MAX ->
  exists s',
    mem (snd (addBarriers kinds (b, e))) !! p = Some s' /\
    totalBarriers s' = totalBarriers s + Z.of_nat (length kinds) /\
    batchedBarriers s <= batchedBarriers s'
      <= batchedBarriers s + Z.of_nat (length kinds) /\
    flushCalls s' = flushCalls s /\
    barrierEfficiency s' = barrierEfficiency s.
Proof.
  induction kinds as [| k kinds IH]; intros b e s Hst Hs Hinv Hmax.
  - exists s. cbn. repeat split; try assumption; lia.
  - unfold addBarriers in *. cbn [fold_left fst snd].
    cbn [length] in Hmax. rewrite Nat2Z.inj_succ in Hmax.
    pose proof (addBarrier_lookup k b e p s Hst Hs) as H1.
    pose proof (addBarrier_batch k b e) as Hb.
    destruct (addBarrier k b e) as [b1 e1]. cbn [fst snd] in *.
    assert (Hst1 : stats b1 = Some p) by (subst b1; exact Hst).
    unfold INT_MAX in *.
    assert (Et : int_incr (totalBarriers s) = totalBarriers s + 1)
      by (apply int_incr_exact; unfold INT_MIN, INT_MAX; lia).
    assert (Eb : int_incr (batchedBarriers s) = batchedBarriers s + 1)
      by (apply int_incr_exact; unfold INT_MIN, INT_MAX; lia).
    destruct (negb (Z.lor (pendingBarriers b) k =? k)).
    + destruct (IH b1 e1 _ Hst1 H1) as (s' & Hs' & Ht & Hbt & Hfl & Hef).
      * cbn. lia.
      * cbn. lia.
      * exists s'. cbn in Ht, Hbt, Hfl, Hef. cbn [length].
        rewrite Nat2Z.inj_succ. repeat split; try assumption; lia.
    + destruct (IH b1 e1 _ Hst1 H1) as (s' & Hs' & Ht & Hbt & Hfl & Hef).
      * cbn. lia.
      * cbn. lia.
      * exists s'. cbn in Ht, Hbt, Hfl, Hef. cbn [length].
        rewrite Nat2Z.inj_succ. repeat split; try assumption; lia.
Qed.

(** X9.  Through an attached statistics object, a run of [addBarrier]
    calls raises [totalBarriers] by exactly the number of calls and
    [batchedBarriers] by at most that number, so [batchedBarriers] never
    overtakes [totalBarriers]; the flush counter and the stored efficiency
    are not touched. *)
Theorem addBarriers_counts
  (kinds : list Z) (b : BarrierBatch.t) (e : env) (p : addr)
  (s : BarrierStats.t) :
  stats b = Some p -> mem e !! p = Some s ->
  0 <= batchedBarriers s <= totalBarriers s ->
  totalBarriers s + Z.of_nat (length kinds) <= INT_MAX ->
  exists s',
    mem (snd (addBarriers kinds (b, e))) !! p = Some s' /\
    totalBarriers s' = totalBarriers s + Z.of_nat (length kinds) /\
    batchedBarriers s <= batchedBarriers s' <= totalBarriers s' /\
    flushCalls s' = flushCalls s /\
    barrierEfficiency s' = barrierEfficiency s.
Proof.
  intros Hst Hs Hinv Hmax.
  destruct (addBarriers_counts_from p kinds b e s Hst Hs Hinv Hmax)
    as (s' & Hs' & Ht & Hb & Hf & He).
  exists s'. repeat split; try assumption; lia.
Qed.

Lemma addBarriers_counts_witness :
  let b := BarrierBatch.Make 0 false (Some 1%positive) in
  let s := BarrierStats.default in
  let e := Env {[ 1%positive := s ]} [] in
  let kinds := [0x2000; 0x1; 0x2000] in
  exists s',
    mem (snd (addBarriers kinds (b, e))) !! 1%positive = Some s' /\
    totalBarriers s' = totalBarriers s + Z.of_nat (length kinds) /\
    batchedBarriers s <= batchedBarriers s' <= totalBarriers s' /\
    flushCalls s' = flushCalls s /\
    barrierEfficiency s' = barrierEfficiency s.
Proof.
  apply (addBarriers_counts [0x2000; 0x1; 0x2000]
           (BarrierBatch.Make 0 false (Some 1%positive))
           (Env {[ 1%positive := BarrierStats.default ]} [])
           1%positive BarrierStats.default).
  - reflexivity.
  - apply lookup_singleton_eq.
  - cbn. lia.
  - cbn. unfold INT_MAX. lia.
Defined.

(** X10.  Starting from an empty pending mask, as after a [flush] or a
    [clear], the first request of a run is never counted as batched: of
    [n >= 1] requests at most [n - 1] are, so [batchedBarriers] stays
    strictly below [totalBarriers]. *)
Theorem addBarriers_first_not_batched
  (kinds : list Z) (b : BarrierBatch.t) (e : env) (p : addr)
  (s : BarrierStats.t) :
  pendingBarriers b = 0 -> kinds <> [] ->
  stats b = Some p -> mem e !! p = Some s ->
  0 <= batchedBarriers s <= totalBarriers s ->
  totalBarriers s + Z.of_nat (length kinds) <= INT_MAX ->
  exists s',
    mem (snd (addBarriers kinds (b, e))) !! p = Some s' /\
    batchedBarriers s' <= batchedBarriers s + Z.of_nat (length kinds) - 1 /\
    batchedBarriers s' < totalBarriers s'.
Proof.
  intros Hp Hne Hst Hs Hinv Hmax.
  destruct kinds as [| k kinds]; [congruence |].
  unfold addBarriers. cbn [fold_left fst snd].
  cbn [length] in Hmax |- *. rewrite Nat2Z.inj_succ in Hmax |- *.
  pose proof (addBarrier_lookup k b e p s Hst Hs) as H1.
  pose proof (addBarrier_batch k b e) as Hb.
  destruct (addBarrier k b e) as [b1 e1]. cbn [fst snd] in *.
  rewrite Hp, Z.lor_0_l, Z.eqb_refl in H1. cbn [negb] in H1.
  assert (Hst1 : stats b1 = Some p) by (subst b1; exact Hst).
  assert (Et : int_incr (totalBarriers s) = totalBarriers s + 1)
    by (apply int_incr_exact; unfold INT_MIN, INT_MAX in *; lia).
  destruct (addBarriers_counts_from p kinds b1 e1 _ Hst1 H1)
    as (s' & Hs' & Ht & Hbt & _).
  - cbn. lia.
  - cbn. lia.
  - exists s'. cbn in Ht, Hbt. split; [exact Hs' |]. lia.
Qed.

Lemma addBarriers_first_not_batched_witness :
  let b := BarrierBatch.Make 0 false (Some 1%positive) in
  let s := BarrierStats.default in
  let e := Env {[ 1%positive := s ]} [] in
  let kinds := [0x2000; 0x1] in
  exists s',
    mem (snd (addBarriers kinds (b, e))) !! 1%positive = Some s' /\
    batchedBarriers s' <= batchedBarriers s + Z.of_nat (length kinds) - 1 /\
    batchedBarriers s' < totalBarriers s'.
Proof.
  apply (addBarriers_first_not_batched [0x2000; 0x1]
           (BarrierBatch.Make 0 false (Some 1%positive))
           (Env {[ 1%positive := BarrierStats.default ]} [])
           1%positive BarrierStats.default).
  - reflexivity.
  - discriminate.
  - reflexivity.
  - apply lookup_singleton_eq.
  - cbn. lia.
  - cbn. unfold INT_MAX. lia.
Defined.

End BarrierComposition.

(** * Runs of member functions on a manager *)

(** Bit-by-bit comparison of two masks built with [Z.lor] and [Z.ldiff],
    using the equations among the hypotheses. *)
Ltac mask_bits :=
  apply Z.bits_inj'; let i := fresh "i" in intros i _;
  repeat match goal with
    | H : @eq Z _ _ |- _ =>
        apply (f_equal (fun z => Z.testbit z i)) in H; revert H
    end;
  repeat first [ rewrite Z.lor_spec | rewrite Z.ldiff_spec | rewrite Z.bits_0 ];
  repeat match goal with
    | |- context [Z.testbit ?x i] => destruct (Z.testbit x i)
    end;
  cbn; intros; congruence.

Section ManagerRuns.
Import CellManager.

Lemma run_pending_gl (o : op) (cm : t) (e : env) :
  let p := BarrierBatch.pendingBarriers (barrierBatch cm) in
  BarrierBatch.pendingBarriers (barrierBatch (fst (run o (cm, e))))
  = match o with
    | OpAddBarrier k => Z.lor p k
    | OpFlushBarriers | OpClearBarriers => 0
    | _ => p
    end /\
  gl (snd (run o (cm, e)))
  = gl e ++ match o with
            | OpFlushBarriers => if p =? 0 then [] else [glMemoryBarrier p]
            | _ => []
            end.
Proof.
  cbn zeta. destruct o; cbn [run fst snd]; rewrite ?app_nil_r;
    try (split; reflexivity).
  - unfold addBarrier.
    pose proof (addBarrier_batch barrier (barrierBatch cm) e) as Hb.
    pose proof (addBarriers_gl [barrier] (barrierBatch cm) e) as Hg.
    unfold BarrierBatch.addBarriers in Hg. cbn [fold_left fst snd] in Hg.
    destruct (BarrierBatch.addBarrier barrier (barrierBatch cm) e) as [b1 e1].
    cbn [fst snd] in *. subst b1. split; [reflexivity | exact Hg].
  - unfold flushBarriers.
    pose proof (flush_batch (barrierBatch cm) e) as Hb.
    pose proof (flush_empty (barrierBatch cm) e) as He.
    pose proof (flush_gl_nonempty (barrierBatch cm) e) as Hg.
    destruct (BarrierBatch.flush (barrierBatch cm) e) as [b1 e1].
    cbn [fst snd] in *. subst b1. split; [reflexivity |].
    destruct (Z.eqb_spec (BarrierBatch.pendingBarriers (barrierBatch cm)) 0)
      as [E | N].
    + rewrite (He E). now rewrite app_nil_r.
    + exact (Hg N).
Qed.

Lemma run_all_cons (o : op) (os : list op) (st : t * env) :
  run_all (o :: os) st = run_all os (run o st).
Proof. reflexivity. Qed.

Lemma requested_cons (o : op) (os : list op) :
  requested (o :: os)
  = match o with
    | OpAddBarrier k => Z.lor k (requested os)
    | _ => requested os
    end.
Proof. now destruct o. Qed.

Lemma run_all_stream (os : list op) :
  forall (cm : t) (e : env),
  let p := BarrierBatch.pendingBarriers (barrierBatch cm) in
  let p' := BarrierBatch.pendingBarriers
              (barrierBatch (fst (run_all os (cm, e)))) in
  exists issued,
    gl (snd (run_all os (cm, e))) = gl e ++ issued /\
    Forall (fun c => mask_of c <> 0) issued /\
    (length issued <= length (List.filter is_flush os))%nat /\
    Z.ldiff (Z.lor p' (or_masks issued)) (Z.lor p (requested os)) = 0 /\
    (forallb (fun o => negb (is_clear o)) os = true ->
     Z.lor p' (or_masks issued) = Z.lor p (requested os)).
Proof.
  induction os as [| o os IH]; intros cm e; cbn zeta.
  - exists []. cbn. rewrite app_nil_r, Z.ldiff_diag. repeat split; auto.
  - rewrite run_all_cons.
    destruct (run_pending_gl o cm e) as [Hp Hg].
    destruct (run o (cm, e)) as [cm1 e1]. cbn [fst snd] in Hp, Hg.
    destruct (IH cm1 e1) as (new & Hgl & Hnz & Hlen & Hsub & Heq).
    cbn zeta in Hsub, Heq.
    set (p := BarrierBatch.pendingBarriers (barrierBatch cm)) in *.
    set (p1 := BarrierBatch.pendingBarriers (barrierBatch cm1)) in *.
    set (p' := BarrierBatch.pendingBarriers
                 (barrierBatch (fst (run_all os (cm1, e1))))) in *.
    set (om := or_masks new) in *.
    set (rq := requested os) in *.
    rewrite requested_cons. fold rq.
    destruct o; cbn [is_flush is_clear List.filter forallb negb andb length];
      rewrite ?app_nil_r in Hg;
      try (exists new; rewrite Hgl, Hg; fold om;
           split; [reflexivity |]; split; [exact Hnz |];
           split; [cbn [length]; lia |];
           split; [clear Heq; mask_bits |];
           first [ discriminate
                 | intros Hnc; specialize (Heq Hnc); clear Hsub; mask_bits ]).
    revert Hg. destruct (Z.eqb_spec p 0) as [E | N]; intros Hg.
    + exists new. rewrite Hgl, Hg, app_nil_r. fold om.
      split; [reflexivity |]. split; [exact Hnz |].
      split; [cbn [length]; lia |].
      split; [clear Heq; mask_bits |].
      intros Hnc; specialize (Heq Hnc); clear Hsub; mask_bits.
    + exists (glMemoryBarrier p :: new). rewrite Hgl, Hg, <- app_assoc.
      cbn [app or_masks fold_right]. fold (or_masks new). fold om.
      split; [reflexivity |]. split; [constructor; [exact N | exact Hnz] |].
      split; [cbn [length]; lia |].
      clear N.
      split; [clear Heq; mask_bits |].
      intros Hnc; specialize (Heq Hnc); clear Hsub; mask_bits.
Qed.

(** X11.  Whatever member functions run, the GL command stream only
    grows, every barrier put on it has a non-empty mask, and there is at
    most one new barrier per [flushBarriers] call; in particular a run
    without [flushBarriers] issues nothing. *)
Theorem run_all_gl_stream (os : list op) (cm : t) (e : env) :
  exists issued,
    gl (snd (run_all os (cm, e))) = gl e ++ issued /\
    Forall (fun c => mask_of c <> 0) issued /\
    (length issued <= length (List.filter is_flush os))%nat.
Proof.
  destruct (run_all_stream os cm e) as (issued & Hg & Hnz & Hlen & _).
  exists issued. auto.
Qed.

(** X12.  No barrier bit comes from nowhere: every bit issued during a
    run or still pending after it was pending before the run or was
    requested through [addBarrier] during it. *)
Theorem run_all_no_spurious_bits (os : list op) (cm : t) (e : env) :
  exists issued,
    gl (snd (run_all os (cm, e))) = gl e ++ issued /\
    Z.ldiff
      (Z.lor (BarrierBatch.pendingBarriers
                (barrierBatch (fst (run_all os (cm, e)))))
             (or_masks issued))
      (Z.lor (BarrierBatch.pendingBarriers (barrierBatch cm)) (requested os))
    = 0.
Proof.
  destruct (run_all_stream os cm e) as (issued & Hg & _ & _ & Hsub & _).
  exists issued. auto.
Qed.

(** X13.  No request is lost unless [clearBarriers] is called: in a run
    without it, the bits issued together with the bits still pending are
    exactly the bits pending before together with the bits requested. *)
Theorem run_all_no_lost_request (os : list op) (cm : t) (e : env) :
  forallb (fun o => negb (is_clear o)) os = true ->
  exists issued,
    gl (snd (run_all os (cm, e))) = gl e ++ issued /\
    Z.lor (BarrierBatch.pendingBarriers
             (barrierBatch (fst (run_all os (cm, e)))))
          (or_masks issued)
    = Z.lor (BarrierBatch.pendingBarriers (barrierBatch cm)) (requested os).
Proof.
  intros Hnc.
  destruct (run_all_stream os cm e) as (issued & Hg & _ & _ & _ & Heq).
  exists issued. auto.
Qed.

Lemma run_all_no_lost_request_witness :
  let cm := default 1000 Float32.one 1%positive in
  let e := Env ∅ [] in
  let os := [OpAddBarrier 0x2000; OpRotateBuffers; OpFlushBarriers;
             OpAddBarrier 0x1] in
  exists issued,
    gl (snd (run_all os (cm, e))) = gl e ++ issued /\
    Z.lor (BarrierBatch.pendingBarriers
             (barrierBatch (fst (run_all os (cm, e)))))
          (or_masks issued)
    = Z.lor (BarrierBatch.pendingBarriers (barrierBatch cm)) (requested os).
Proof.
  apply (run_all_no_lost_request
           [OpAddBarrier 0x2000; OpRotateBuffers; OpFlushBarriers;
            OpAddBarrier 0x1]
           (default 1000 Float32.one 1%positive) (Env ∅ [])).
  reflexivity.
Defined.

End ManagerRuns.

(** * Re-seating the statistics pointer *)

Section Reseating.
Import BarrierStats BarrierBatch.

Lemma addBarriers_frame (q : addr) (kinds : list Z) :
  forall (b : BarrierBatch.t) (e : env),
  stats b = Some q ->
  stats (fst (addBarriers kinds (b, e))) = Some q /\
  forall r, r <> q -> mem (snd (addBarriers kinds (b, e))) !! r = mem e !! r.
Proof.
  induction kinds as [| k kinds IH]; intros b e Hst; [auto |].
  unfold addBarriers in *. cbn [fold_left fst snd].
  pose proof (addBarrier_batch k b e) as Hb.
  assert (Hm : forall r, r <> q ->
               mem (snd (addBarrier k b e)) !! r = mem e !! r).
  { intros r Hr. unfold addBarrier. rewrite Hst. cbn [snd mem set_mem].
    apply lookup_alter_ne. congruence. }
  destruct (addBarrier k b e) as [b1 e1]. cbn [fst snd] in *.
  assert (Hst1 : stats b1 = Some q) by (subst b1; exact Hst).
  destruct (IH b1 e1 Hst1) as [Hs Hf]. split; [exact Hs |].
  intros r Hr. rewrite Hf by exact Hr. now apply Hm.
Qed.

(** X14.  [setStats] re-seats the statistics pointer and does nothing
    else: the pending mask and [needsFlush] are kept, and from then on
    requests are counted in the object now pointed to, every call once,
    while every other object in the store, the one pointed to before
    included, is left exactly as it was. *)
Theorem setStats_redirects_counts
  (kinds : list Z) (b : BarrierBatch.t) (e : env) (q : addr)
  (sq : BarrierStats.t) :
  mem e !! q = Some sq ->
  0 <= batchedBarriers sq <= totalBarriers sq ->
  totalBarriers sq + Z.of_nat (length kinds) <= INT_MAX ->
  let b0 := setStats (Some q) b in
  let st := addBarriers kinds (b0, e) in
  pendingBarriers b0 = pendingBarriers b /\
  needsFlush b0 = needsFlush b /\
  stats (fst st) = Some q /\
  (forall r, r <> q -> mem (snd st) !! r = mem e !! r) /\
  exists sq',
    mem (snd st) !! q = Some sq' /\
    totalBarriers sq' = totalBarriers sq + Z.of_nat (length kinds).
Proof.
  intros Hq Hinv Hmax b0 st.
  assert (Hst : stats b0 = Some q) by reflexivity.
  destruct (addBarriers_frame q kinds b0 e Hst) as [Hs Hf].
  destruct (addBarriers_counts_from q kinds b0 e sq Hst Hq Hinv Hmax)
    as (sq' & Hq' & Ht & _).
  split; [reflexivity |]. split; [reflexivity |].
  split; [exact Hs |]. split; [exact Hf |].
  exists sq'. split; [exact Hq' | exact Ht].
Qed.

(** A batch counting into the object at address 1 is re-seated to the
    object at address 2. *)
Lemma setStats_redirects_counts_witness :
  let b := BarrierBatch.Make 0x2000 true (Some 1%positive) in
  let sq := BarrierStats.Make 5 2 1 Float32.zero in
  let e := Env {[ 1%positive := BarrierStats.Make 3 1 0 Float32.zero;
                  2%positive := sq ]} [] in
  let kinds := [0x1; 0x2000] in
  let b0 := setStats (Some 2%positive) b in
  let st := addBarriers kinds (b0, e) in
  pendingBarriers b0 = pendingBarriers b /\
  needsFlush b0 = needsFlush b /\
  stats (fst st) = Some 2%positive /\
  (forall r, r <> 2%positive -> mem (snd st) !! r = mem e !! r) /\
  exists sq',
    mem (snd st) !! 2%positive = Some sq' /\
    totalBarriers sq' = totalBarriers sq + Z.of_nat (length kinds).
Proof.
  apply (setStats_redirects_counts [0x1; 0x2000]
           (BarrierBatch.Make 0x2000 true (Some 1%positive))
           (Env {[ 1%positive := BarrierStats.Make 3 1 0 Float32.zero;
                   2%positive := BarrierStats.Make 5 2 1 Float32.zero ]} [])
           2%positive (BarrierStats.Make 5 2 1 Float32.zero)).
  - cbn [mem]. rewrite lookup_insert_ne by discriminate.
    apply lookup_singleton_eq.
  - cbn. lia.
  - cbn. unfold INT_MAX. lia.
Defined.

End Reseating.

(** * The statistics object behind the pointer *)

Section StatisticsObject.
Import CellManager.

(** X15.  With [barrierBatch.stats] pointing at the manager's own
    [barrierStats], resetting the statistics does not cancel pending
    barriers: the next [flushBarriers] still issues them, and then reports
    one flush, no barriers and an efficiency of 0.0, the guard in
    [updateEfficiency] keeping it from becoming 0/0. *)
Theorem reset_then_flush (cm : t) (e : env) (s : BarrierStats.t) :
  BarrierBatch.stats (barrierBatch cm) = Some (barrierStats cm) ->
  mem e !! barrierStats cm = Some s ->
  BarrierBatch.pendingBarriers (barrierBatch cm) <> 0 ->
  let st := flushBarriers cm (resetBarrierStats cm e) in
  getBarrierStats (fst st) (snd st)
  = Some (BarrierStats.Make 0 0 1 Float32.zero) /\
  gl (snd st)
  = gl e ++ [glMemoryBarrier (BarrierBatch.pendingBarriers (barrierBatch cm))] /\
  BarrierBatch.pendingBarriers (barrierBatch (fst st)) = 0.
Proof.
  intros Hst Hs N st. subst st. unfold flushBarriers.
  pose proof (flush_batch (barrierBatch cm) (resetBarrierStats cm e)) as Hb.
  pose proof (flush_gl_nonempty (barrierBatch cm) (resetBarrierStats cm e) N)
    as Hg.
  pose proof (flush_counts (barrierBatch cm) (resetBarrierStats cm e)
                (barrierStats cm) (BarrierStats.reset s) N Hst) as Hc.
  destruct (BarrierBatch.flush (barrierBatch cm) (resetBarrierStats cm e))
    as [b1 e1].
  cbn [fst snd] in *. subst b1. unfold getBarrierStats.
  cbn [barrierStats set_barrierBatch barrierBatch BarrierBatch.pendingBarriers].
  split; [| split; [exact Hg | reflexivity]].
  rewrite Hc; [reflexivity |].
  unfold resetBarrierStats. cbn [mem set_mem].
  now rewrite lookup_alter_eq, Hs.
Qed.

Lemma reset_then_flush_witness :
  let cm := set_barrierBatch
              (BarrierBatch.Make 0x2000 false (Some 1%positive))
              (default 1000 Float32.one 1%positive) in
  let e := Env {[ 1%positive := BarrierStats.Make 9 4 2 Float32.one ]} [] in
  let st := flushBarriers cm (resetBarrierStats cm e) in
  getBarrierStats (fst st) (snd st)
  = Some (BarrierStats.Make 0 0 1 Float32.zero) /\
  gl (snd st)
  = gl e ++ [glMemoryBarrier (BarrierBatch.pendingBarriers (barrierBatch cm))] /\
  BarrierBatch.pendingBarriers (barrierBatch (fst st)) = 0.
Proof.
  apply (reset_then_flush
           (set_barrierBatch
              (BarrierBatch.Make 0x2000 false (Some 1%positive))
              (default 1000 Float32.one 1%positive))
           (Env {[ 1%positive := BarrierStats.Make 9 4 2 Float32.one ]} [])
           (BarrierStats.Make 9 4 2 Float32.one)).
  - reflexivity.
  - apply lookup_singleton_eq.
  - discriminate.
Defined.

End StatisticsObject.

(** * The rotation schedule *)

Section RotationSchedule.
Import CellManager.

(** X16.  Triple buffering: over three consecutive frames the read slot
    takes three different values, and the slot written after a rotation is
    the one that was neither read nor written before it, so the buffer
    just read is never the next write target. *)
Theorem rotation_schedule (cm : t) :
  0 <= bufferRotation cm < INT_MAX ->
  let rd0 := getRotatedIndex 0 3 cm in
  let wr0 := getRotatedIndex 1 3 cm in
  let rd1 := getRotatedIndex 0 3 (rotateBuffers cm) in
  let wr1 := getRotatedIndex 1 3 (rotateBuffers cm) in
  let rd2 := getRotatedIndex 0 3 (rotateBuffers (rotateBuffers cm)) in
  rd0 <> rd1 /\ rd1 <> rd2 /\ rd0 <> rd2 /\
  wr1 <> rd0 /\ wr1 <> wr0 /\ wr1 = rd2.
Proof.
  intros Hr.
  pose proof (rotateBuffers_range cm Hr) as H1.
  assert (H1' : 0 <= bufferRotation (rotateBuffers cm) < INT_MAX)
    by (unfold INT_MAX; lia).
  pose proof (rotateBuffers_range _ H1') as H2.
  cbn zeta.
  rewrite !getRotatedIndex_mod by (unfold INT_MAX in *; lia).
  rewrite (bufferRotation_rotate (rotateBuffers cm)).
  rewrite (getRotatedIndex_mod 1 (rotateBuffers cm)) by (unfold INT_MAX in *; lia).
  rewrite bufferRotation_rotate, getRotatedIndex_mod by lia.
  Z.div_mod_to_equations. lia.
Qed.

Lemma rotation_schedule_witness :
  let cm := default 1000 Float32.one 1%positive in
  let rd0 := getRotatedIndex 0 3 cm in
  let wr0 := getRotatedIndex 1 3 cm in
  let rd1 := getRotatedIndex 0 3 (rotateBuffers cm) in
  let wr1 := getRotatedIndex 1 3 (rotateBuffers cm) in
  let rd2 := getRotatedIndex 0 3 (rotateBuffers (rotateBuffers cm)) in
  rd0 <> rd1 /\ rd1 <> rd2 /\ rd0 <> rd2 /\
  wr1 <> rd0 /\ wr1 <> wr0 /\ wr1 = rd2.
Proof.
  apply (rotation_schedule (default 1000 Float32.one 1%positive)).
  cbn. unfold INT_MAX. lia.
Defined.

(** X17.  The remainder of C++ keeps the sign of the dividend, so a
    negative rotation counter that is not a multiple of 3 selects a
    negative read index, outside [cellBuffer]; three calls of
    [rotateBuffers] bring the counter and the read index back into
    0..2, to a slot other than the one selected at the start. *)
Theorem negative_counter_reads_outside (cm : t) :
  INT_MIN <= bufferRotation cm < 0 ->
  Z.rem (bufferRotation cm) 3 <> 0 ->
  let cm3 := rotateBuffers (rotateBuffers (rotateBuffers cm)) in
  getRotatedIndex 0 3 cm < 0 /\
  getCellReadBuffer cm = None /\
  0 <= bufferRotation cm3 < 3 /\
  0 <= getRotatedIndex 0 3 cm3 < 3.
Proof.
  intros Hr Hrem cm3. unfold INT_MIN in Hr.
  assert (A : forall index c, -3 <= index + c <= 3 \/
                              (0 <= index <= 1 /\ - 2 ^ 31 <= c < 0) ->
              int_rem (int_add index c) 3 = Z.rem (index + c) 3).
  { intros index c Hc. unfold int_rem.
    rewrite int_add_exact; [reflexivity |].
    unfold is_int, INT_MIN, INT_MAX. lia. }
  assert (E0 : getRotatedIndex 0 3 cm = Z.rem (bufferRotation cm) 3).
  { unfold getRotatedIndex. rewrite A by lia. f_equal. }
  assert (R1 : bufferRotation (rotateBuffers cm)
               = Z.rem (1 + bufferRotation cm) 3).
  { rewrite bufferRotation_rotate. unfold getRotatedIndex. apply A. lia. }
  assert (B1 : -2 <= bufferRotation (rotateBuffers cm) <= 0).
  { rewrite R1. Z.quot_rem_to_equations. lia. }
  assert (R2 : bufferRotation (rotateBuffers (rotateBuffers cm))
               = 1 + bufferRotation (rotateBuffers cm)).
  { rewrite (bufferRotation_rotate (rotateBuffers cm)). unfold getRotatedIndex.
    rewrite A by lia. apply Z.rem_small_iff; lia. }
  assert (R3 : bufferRotation cm3
               = 1 + bufferRotation (rotateBuffers (rotateBuffers cm))).
  { unfold cm3.
    rewrite (bufferRotation_rotate (rotateBuffers (rotateBuffers cm))).
    unfold getRotatedIndex. rewrite A by lia. apply Z.rem_small_iff; lia. }
  assert (Hlt : getRotatedIndex 0 3 cm < 0).
  { rewrite E0. Z.quot_rem_to_equations. lia. }
  split; [exact Hlt |]. split.
  - unfold getCellReadBuffer, array_get.
    destruct (Z.leb_spec 0 (getRotatedIndex 0 3 cm)); [lia | reflexivity].
  - split; [lia |].
    unfold getRotatedIndex. rewrite A by lia.
    Z.quot_rem_to_equations. lia.
Qed.

Lemma negative_counter_reads_outside_witness :
  let cm := set_bufferRotation (-1) (default 1000 Float32.one 1%positive) in
  let cm3 := rotateBuffers (rotateBuffers (rotateBuffers cm)) in
  getRotatedIndex 0 3 cm < 0 /\
  getCellReadBuffer cm = None /\
  0 <= bufferRotation cm3 < 3 /\
  0 <= getRotatedIndex 0 3 cm3 < 3.
Proof.
  apply (negative_counter_reads_outside
           (set_bufferRotation (-1) (default 1000 Float32.one 1%positive))).
  - cbn. unfold INT_MIN. lia.
  - cbn. discriminate.
Defined.

End RotationSchedule.

(** * A batch without statistics *)

Section DetachedBatch.
Import BarrierBatch.



End DetachedBatch.

(** * The record without hidden padding *)

Section RecordPadding.
Import Layout.

(** X20.  The compiler inserts no padding into [ComputeCell]: whether GLM
    aligns its vectors to 4 or to 16 bytes, the members follow one another
    without gaps, every vector and quaternion starts at a multiple of 16,
    and the size of the record is the sum of the sizes of its members. *)
Theorem ComputeCell_no_hidden_padding (glm_align : Z) :
  glm_align = 4 \/ glm_align = 16 ->
  fst (place glm_align ComputeCell_fields 0)
  = [ ("positionAndMass", 0); ("velocity", 16); ("acceleration", 32);
      ("orientation", 48); ("angularVelocity", 64);
      ("angularAcceleration", 80); ("signallingSubstances", 96);
      ("modeIndex", 112); ("age", 116); ("toxins", 120); ("nitrates", 124);
      ("uniqueID", 128); ("justSplit", 136); ("padding2", 144) ]%string /\
  fold_right (fun f acc => sizeof (snd f) + acc) 0 ComputeCell_fields
  = sizeof_ComputeCell glm_align.
Proof.
  intros [-> | ->]; split; vm_compute; reflexivity.
Qed.

Lemma ComputeCell_no_hidden_padding_witness :
  fst (place 16 ComputeCell_fields 0)
  = [ ("positionAndMass", 0); ("velocity", 16); ("acceleration", 32);
      ("orientation", 48); ("angularVelocity", 64);
      ("angularAcceleration", 80); ("signallingSubstances", 96);
      ("modeIndex", 112); ("age", 116); ("toxins", 120); ("nitrates", 124);
      ("uniqueID", 128); ("justSplit", 136); ("padding2", 144) ]%string /\
  fold_right (fun f acc => sizeof (snd f) + acc) 0 ComputeCell_fields
  = sizeof_ComputeCell 16.
Proof.
  apply (ComputeCell_no_hidden_padding 16). right. reflexivity.
Defined.

End RecordPadding.
